(** * mflowgen [param] command handler and the PyMTL instruction-buffer
      datapath: a shallow embedding and its properties.

    Two source files are embedded:
    - [src/mflowgen/param/param_handler.py]  (class [ParamHandler]),
    - [src/pymtl/instbuffer/InstBufferDpath.py] (class [InstBufferDpath]:
      its registers, its wiring and its two combinational blocks). *)

From Stdlib Require Import ZArith Ascii String List Lia Bool.
From stdpp Require Import base option gmap strings pretty.

Local Open Scope string_scope.
Local Open Scope Z_scope.

(** ** Python values that reach the handler from the command line *)

Module Py.

(** The objects argparse can hand over for [--key], [--value] and
    [--step]: [None] for an absent flag, a [str], or an [int] when the
    flag is declared with [type=int]. *)
Inductive value : Type :=
| PyNone
| PyBool (b : bool)
| PyInt (n : Z)
| PyStr (s : string).

(** [bool(v)]: what [not v] and [v or w] test. *)
Definition truthy (v : value) : bool :=
  match v with
  | PyNone => false
  | PyBool b => b
  | PyInt n => negb (n =? 0)
  | PyStr s => negb (String.eqb s EmptyString)
  end.

(** [str(v)], which is what [str.format] inserts for a bare [{name}]. *)
Definition str (v : value) : string :=
  match v with
  | PyNone => "None"
  | PyBool true => "True"
  | PyBool false => "False"
  | PyInt n => pretty n
  | PyStr s => s
  end.

(** [print( a, b, ... )] writes its arguments separated by one blank. *)
Definition spaced (items : list string) : string := String.concat " " items.

(** [bool(xs)] for a list: [not args] is [negb (nonempty args)]. *)
Definition nonempty {A} (xs : list A) : bool :=
  match xs with
  | [] => false
  | _ :: _ => true
  end.

(** [needle in line] for two [str] objects. *)
Fixpoint contains (needle line : string) : bool :=
  String.prefix needle line
  || match line with
     | EmptyString => false
     | String _ rest => contains needle rest
     end.

End Py.

(** ** The process a command runs in: the files below [.mflowgen] and the
       terminal *)

Module Proc.

(** The header comment of [param_handler.py] places the parameters of the
    elaborated graph "in the configure.yml and mflowgen-run script for
    each node" of the hidden metadata directory [.mflowgen]. *)
Record configure_yml : Type := ConfigureYml {
  parameters : gmap string Py.value;
  other_keys : gmap string Py.value
}.

Record node : Type := Node {
  config  : configure_yml;
  run_script : string
}.

(** [None]: the directory [.mflowgen] does not exist (the graph was never
    elaborated). Otherwise the nodes, by the text of their step number. *)
Definition metadata : Type := option (gmap string node).

Record state : Type := State {
  files  : metadata;
  stdout : list string
}.

(** How a call ends: it returns, or [sys.exit] unwinds the interpreter. *)
Inductive completion (A : Type) : Type :=
| Returns (a : A)
| SysExit (status : Z).
Arguments Returns {A} a.
Arguments SysExit {A} status.

Definition cmd (A : Type) : Type := state -> completion A * state.

Definition ret {A} (a : A) : cmd A := fun st => (Returns a, st).

Definition bind {A B} (c : cmd A) (k : A -> cmd B) : cmd B :=
  fun st =>
    match c st with
    | (Returns a, st') => k a st'
    | (SysExit n, st') => (SysExit n, st')
    end.

(** [print( line )] *)
Definition print (line : string) : cmd unit :=
  fun st => (Returns tt, State (files st) (stdout st ++ [line])).

(** [sys.exit( n )] *)
Definition sys_exit {A} (n : Z) : cmd A := fun st => (SysExit n, st).

(** The status the shell sees: 0 when the program runs to its end. *)
Definition exit_status {A} (c : completion A) : Z :=
  match c with
  | Returns _ => 0
  | SysExit n => n
  end.

Fixpoint print_all (lines : list string) : cmd unit :=
  match lines with
  | [] => ret tt
  | l :: ls => bind (print l) (fun _ => print_all ls)
  end.

#[global] Instance cmd_ret : MRet cmd := @ret.
#[global] Instance cmd_bind : MBind cmd := fun A B k c => bind c k.

End Proc.


(** ** [class ParamHandler] *)

Module ParamHandler.

Import Py Proc.

(** The double-quote character of the messages. *)
Definition dq : string := String "034"%char EmptyString.

(** [s.commands], set by [__init__]. *)
Definition commands : list string := ["update"; "help"].

(** What the [try] block of [launch] can raise. *)
Inductive raised : Type :=
| IndexError       (* [args[0]] on an empty list *)
| AssertionError.  (* [assert command in s.commands] *)

(** [command = args[0]; assert command in s.commands] *)
Definition first_command (args : list string) : raised + string :=
  match args with
  | [] => inl IndexError
  | command :: _ =>
      if bool_decide (command ∈ commands) then inr command
      else inl AssertionError
  end.

(** The line printed when an update has gone through:
    ['Updated parameter "{key}" = "{value}" for step "{step}"'.format(..)] *)
Definition updated_line (key value step : value) : string :=
  "Updated parameter " +:+ dq +:+ str key +:+ dq +:+ " = " +:+ dq
    +:+ str value +:+ dq +:+ " for step " +:+ dq +:+ str step +:+ dq.

Definition unrecognized_commands : string :=
  "param: Unrecognized commands (see " +:+ dq +:+ "mflowgen param help"
    +:+ dq +:+ ")".

Definition unrecognized_args : string :=
  "param: Unrecognized positional args".

Section Styled.

(** [bold] of [mflowgen.utils], a terminal styling helper imported by
    the handler: any function on text. *)
Variable bold : string -> string.

(** The lines of the nested [print_help] of [launch_update]. *)
Definition usage_lines : list string :=
  [ EmptyString;
    spaced [ bold "Usage:"; "mflowgen param update";
             "--key/-k <key>"; "--value/-v <value>";
             "[--step/-s <int>]"; "[--all]" ];
    EmptyString;
    spaced [ bold "Example:"; "mflowgen param update";
             "--key clock_period --value 2.0"; "--all" ];
    EmptyString;
    "Updates the parameter for the given step in the build";
    "graph. The parameter key-value pair is only updated if";
    "the key is defined and exists. The --all option applies";
    "the update to all nodes in the currently elaborated graph.";
    EmptyString ].

Definition print_help : cmd unit := print_all usage_lines.

(** The lines of [launch_help]. *)
Definition help_lines : list string :=
  [ EmptyString;
    bold "Param Commands";
    EmptyString;
    spaced [ bold " - update :"; "Interactive update parameters" ];
    EmptyString;
    "Run any command with -h to see more details";
    EmptyString ].

Definition launch_help : cmd unit := print_all help_lines.

(** [launch_update( s, help_, key, value, step, all_ )]. Between the
    flag test and the final [print] the source has only the comment
    markers "Implement here" / "End of implementation": no statement,
    so nothing is read from or written to [.mflowgen]. *)
Definition launch_update (help_ : bool) (key value step : value)
    (all_ : bool) : cmd unit :=
  if help_ || negb (truthy key) || negb (truthy value)
     || negb (truthy step || all_)
  then print_help
  else print (updated_line key value step).

(** [launch( s, args, help_, key, value, step, all_ )] *)
Definition launch (args : list string) (help_ : bool)
    (key value step : value) (all_ : bool) : cmd unit :=
  if help_ && negb (nonempty args) then launch_help
  else
    match first_command args with
    | inl _ => print unrecognized_commands ;; sys_exit 1
    | inr command =>
        help_ ← (if bool_decide (length args ≤ 1)%nat then mret help_
                 else print EmptyString ;; print unrecognized_args ;;
                      mret true);
        if String.eqb command "update"
        then launch_update help_ key value step all_
        else launch_help
    end.

End Styled.

End ParamHandler.


(** ** Vocabulary of the statements about [.mflowgen]

    [launch_update] has no code that looks a step up, so the notions the
    properties are phrased with (the node a [--step] argument addresses,
    the nodes a call targets, a flag being absent) are fixed here, over
    the state of [Proc]. *)

Module Scope.

Import Py Proc.

(** The node of step [sid], if the graph is elaborated and has it. *)
Definition node_of (m : metadata) (sid : string) : option node :=
  g ← m; g !! sid.

(** The [--step] argument resolves to a node of the graph. *)
Definition step_exists (m : metadata) (step : value) : Prop :=
  is_Some (node_of m (str step)).

(** The value of parameter [key] in the configure.yml of step [sid]. *)
Definition parameter_of (m : metadata) (sid : string) (key : value)
    : option value :=
  nd ← node_of m sid; parameters (config nd) !! str key.

(** Step [sid] is addressed by the call: named by [--step], or any step
    under [--all]. *)
Definition targeted (step : value) (all_ : bool) (sid : string) : Prop :=
  all_ = true ∨ (truthy step = true ∧ sid = str step).

(** The flags [launch_update] insists on are all there. *)
Definition valid_flags (help_ : bool) (key value step : value)
    (all_ : bool) : Prop :=
  help_ = false ∧ truthy key = true ∧ truthy value = true
  ∧ (truthy step = true ∨ all_ = true).

(** One of the required flags is absent (or empty). *)
Definition missing_flag (key value step : value) (all_ : bool) : Prop :=
  truthy key = false ∨ truthy value = false
  ∨ (truthy step = false ∧ all_ = false).

(** A call that ends the process with a failure status. *)
Definition fatal {A} (c : completion A) : Prop := exit_status c ≠ 0.

(** The line mentions both the step and the key. *)
Definition names_step_and_key (sid : string) (key : value)
    (line : string) : bool :=
  contains sid line && contains (str key) line.

(** A terminal without styling, to run the handler on concrete input. *)
Definition no_style (text : string) : string := text.

(** A graph of one node, step 5, with one parameter. *)
Definition clock_node : node :=
  Node (ConfigureYml {[ "clock_period" := PyStr "1.0" ]} ∅)
       "run: clock_period=1.0".

Definition one_step_graph : metadata := Some {[ "5" := clock_node ]}.

Definition at_prompt (m : metadata) : state := State m [].

End Scope.

(** ** PyMTL bit vectors *)

Module Bits.

(** A [Bits] object: its width and its unsigned value. *)
Record t : Type := mk { nbits : Z; uint : Z }.

(** [Bits( nbits, value )] *)
Definition make (n v : Z) : t := mk n (Z.land v (Z.ones n)).

(** [b[lo:hi]]: bits [lo] .. [hi-1]. *)
Definition slice (b : t) (lo hi : Z) : t :=
  mk (hi - lo) (Z.land (Z.shiftr (uint b) lo) (Z.ones (hi - lo))).

(** [concat( a, b )]: [a] above [b]. *)
Definition concat (a b : t) : t :=
  mk (nbits a + nbits b) (Z.lor (Z.shiftl (uint a) (nbits b)) (uint b)).

(** The value fits the width. *)
Definition wf (b : t) : Prop := 0 <= nbits b ∧ 0 <= uint b < 2 ^ nbits b.

(** [clog2( n )] of PyMTL: the ceiling of the base-2 logarithm. *)
Definition clog2 (n : Z) : Z := Z.log2_up n.

End Bits.

(** ** [class InstBufferDpath]: the memory-request side *)

Module InstBufferDpath.

(** The fields of the [memreq_msg] port. *)
Record MemReqMsg : Type := MkMemReqMsg {
  type_  : Z;
  opaque : Bits.t;
  addr   : Bits.t;
  len    : Bits.t;
  data   : Bits.t
}.

Section Model.

(** [MemReqMsg.TYPE_READ], a constant of the imported [ifcs] package:
    any integer. *)
Variable TYPE_READ : Z.

(** The constructor argument [line_nbytes]. *)
Variable line_nbytes : Z.

Definition opaque_nbits : Z := 8.
Definition line_nbits   : Z := line_nbytes * 8.
Definition line_bw      : Z := Bits.clog2 line_nbytes.
Definition addr_nbits   : Z := 32.
Definition tag_nbits    : Z := addr_nbits - line_bw.
Definition data_nbits   : Z := 32.

(** [comb_memreq_msg_pack]: from the output of [buffreq_addr_reg] and
    the port as it stands, the port after the block has run. The
    block drives four fields; [data] keeps its value. *)
Definition comb_memreq_msg_pack (buffreq_addr_reg_out : Bits.t)
    (memreq_msg : MemReqMsg) : MemReqMsg :=
  {| type_  := TYPE_READ;
     opaque := Bits.make opaque_nbits 0;
     addr   := Bits.concat
                 (Bits.slice buffreq_addr_reg_out line_bw addr_nbits)
                 (Bits.make line_bw 0);
     len    := Bits.make 4 0;
     data   := data memreq_msg |}.

End Model.

End InstBufferDpath.

(** ** The [pclib.rtl] components the datapath instantiates *)

Module Pclib.

(** [RegEnRst( dtype, reset_value )] at a clock edge: [reset_value] under
    [reset], else [in_] when [en] is high, else the value it holds. *)
Definition RegEnRst (nbits reset_value : Z) (reset en : bool)
    (in_ out : Bits.t) : Bits.t :=
  if reset then Bits.make nbits reset_value
  else if en then in_
  else out.

(** [EqComparator]: [out = ( in0 == in1 )]. *)
Definition EqComparator (in0 in1 : Bits.t) : bool :=
  Bits.uint in0 =? Bits.uint in1.

(** [Mux( dtype, nports )]: [out = in_[ sel ]]; no output when [sel]
    names no port. *)
Definition Mux (in_ : list Bits.t) (sel : Bits.t) : option Bits.t :=
  if Bits.uint sel <? 0 then None else in_ !! Z.to_nat (Bits.uint sel).

End Pclib.

(** ** [class InstBufferDpath]: registers, wiring and the response side *)

Module InstBufferWiring.

(** The registers of the datapath, each by the value on its [out]. *)
Record registers : Type := Registers {
  buffreq_addr_reg   : Bits.t;
  buffreq_opaque_reg : Bits.t;
  memresp_data_reg   : Bits.t;
  tag_array          : list Bits.t;
  data_array         : list Bits.t
}.

(** The input ports (the message fields the datapath reads) and the
    implicit [reset] of a PyMTL model. *)
Record inputs : Type := Inputs {
  reset              : bool;
  buffreq_msg_addr   : Bits.t;
  buffreq_msg_opaque : Bits.t;
  memresp_msg_data   : Bits.t;
  buffreq_en         : bool;
  memresp_en         : bool;
  arrays_wen_mask    : Bits.t;
  way_sel            : Bits.t;
  way_sel_current    : Bits.t;
  buffresp_hit       : Bits.t
}.

(** The fields of the [buffresp_msg] port. *)
Record MemRespMsg : Type := MkMemRespMsg {
  type_  : Z;
  opaque : Bits.t;
  test   : Bits.t;
  len    : Bits.t;
  data   : Bits.t
}.

Section Wiring.

(** [MemRespMsg.TYPE_READ], a constant of the imported [ifcs] package. *)
Variable TYPE_READ : Z.

(** The constructor argument [line_nbytes]. *)
Variable line_nbytes : Z.

Local Abbreviation opaque_nbits := InstBufferDpath.opaque_nbits.
Local Abbreviation line_nbits   := (InstBufferDpath.line_nbits line_nbytes).
Local Abbreviation line_bw      := (InstBufferDpath.line_bw line_nbytes).
Local Abbreviation addr_nbits   := InstBufferDpath.addr_nbits.
Local Abbreviation tag_nbits    := (InstBufferDpath.tag_nbits line_nbytes).
Local Abbreviation data_nbits   := InstBufferDpath.data_nbits.

(** [line_nwords = line_nbits/data_nbits] (integer division). *)
Definition line_nwords : Z := line_nbits / data_nbits.

(** [s.buffreq_addr_reg.out[line_bw:addr_nbits]]: the tag of the current
    request, wired to every [tag_array[i].in_] and [tag_compare[i].in0]. *)
Definition req_tag (r : registers) : Bits.t :=
  Bits.slice (buffreq_addr_reg r) line_bw addr_nbits.

(** One clock edge: every register of the datapath with the [en] and
    [in_] it is connected to. *)
Definition tick (i : inputs) (r : registers) : registers :=
  {| buffreq_addr_reg :=
       Pclib.RegEnRst addr_nbits 0 (reset i) (buffreq_en i)
         (buffreq_msg_addr i) (buffreq_addr_reg r);
     buffreq_opaque_reg :=
       Pclib.RegEnRst opaque_nbits 0 (reset i) (buffreq_en i)
         (buffreq_msg_opaque i) (buffreq_opaque_reg r);
     memresp_data_reg :=
       Pclib.RegEnRst line_nbits 0 (reset i) (memresp_en i)
         (memresp_msg_data i) (memresp_data_reg r);
     tag_array :=
       imap (fun k out =>
               Pclib.RegEnRst tag_nbits 0 (reset i)
                 (Z.testbit (Bits.uint (arrays_wen_mask i)) (Z.of_nat k))
                 (req_tag r) out)
            (tag_array r);
     data_array :=
       imap (fun k out =>
               Pclib.RegEnRst line_nbits 0 (reset i)
                 (Z.testbit (Bits.uint (arrays_wen_mask i)) (Z.of_nat k))
                 (memresp_msg_data i) out)
            (data_array r) |}.

(** [tag_match_mask], bit by bit: [tag_compare[i].out]. *)
Definition tag_match_mask (r : registers) : list bool :=
  Pclib.EqComparator (req_tag r) <$> tag_array r.

(** [read_data], the output of [data_read_mux]. *)
Definition read_data (i : inputs) (r : registers) : option Bits.t :=
  Pclib.Mux (data_array r) (way_sel_current i).

(** The inputs of [read_word_sel_mux]:
    [read_data[i*addr_nbits:(i+1)*addr_nbits]] for [i] below
    [line_nwords]. *)
Definition read_words (line : Bits.t) : list Bits.t :=
  (fun k : nat =>
     Bits.slice line (Z.of_nat k * addr_nbits)
       ((Z.of_nat k + 1) * addr_nbits))
  <$> seq 0 (Z.to_nat line_nwords).

(** [s.buffreq_addr_reg.out[2:line_bw]], the select of
    [read_word_sel_mux]. *)
Definition read_word_sel (r : registers) : Bits.t :=
  Bits.slice (buffreq_addr_reg r) 2 line_bw.

(** The output of [read_word_sel_mux]. *)
Definition read_word (i : inputs) (r : registers) : option Bits.t :=
  line ← read_data i r; Pclib.Mux (read_words line) (read_word_sel r).

(** [comb_buffresp_msg_pack], given the output of [read_word_sel_mux].
    The block drives [type_], [test], [len] and [data]; [opaque] is wired
    to [buffreq_opaque_reg.out]. *)
Definition comb_buffresp_msg_pack (i : inputs) (r : registers)
    (read_word_sel_mux_out : Bits.t) : MemRespMsg :=
  {| type_  := TYPE_READ;
     opaque := buffreq_opaque_reg r;
     test   := Bits.concat (Bits.make 1 0) (buffresp_hit i);
     len    := Bits.make 2 0;
     data   := read_word_sel_mux_out |}.

(** The [buffresp_msg] port once the two muxes and the block have
    settled; no message when a mux is asked for a port it does not
    have. *)
Definition buffresp_msg (i : inputs) (r : registers) : option MemRespMsg :=
  word ← read_word i r; Some (comb_buffresp_msg_pack i r word).

(** A signal of [n] bits: the width is [n] and the value fits it. *)
Definition fits (n : Z) (b : Bits.t) : Prop :=
  Bits.nbits b = n ∧ 0 <= Bits.uint b < 2 ^ n.

(** The registers have the widths they are declared with and the two
    arrays have [num_entries] registers each. *)
Definition registers_ok (num_entries : nat) (r : registers) : Prop :=
  fits addr_nbits (buffreq_addr_reg r)
  ∧ fits opaque_nbits (buffreq_opaque_reg r)
  ∧ fits line_nbits (memresp_data_reg r)
  ∧ length (tag_array r) = num_entries
  ∧ Forall (fits tag_nbits) (tag_array r)
  ∧ length (data_array r) = num_entries
  ∧ Forall (fits line_nbits) (data_array r).

(** The message fields on the input ports have their declared widths. *)
Definition inputs_ok (i : inputs) : Prop :=
  fits addr_nbits (buffreq_msg_addr i)
  ∧ fits opaque_nbits (buffreq_msg_opaque i)
  ∧ fits line_nbits (memresp_msg_data i).

End Wiring.

(** A two-entry buffer with 16-byte lines in the middle of a refill:
    the request for [0x12345678] is registered, entry 0 holds the line
    of tag [0x1234567], entry 1 is still empty. *)
Definition sample_registers : registers :=
  Registers (Bits.mk 32 305419896) (Bits.mk 8 5) (Bits.mk 128 0)
    [Bits.mk 28 19088743; Bits.mk 28 0]
    [Bits.mk 128 (1 + 2 * 2 ^ 32 + 3 * 2 ^ 64 + 4 * 2 ^ 96);
     Bits.mk 128 0].

(** The ports on the edge that writes the refill data into entry 1
    while the next request, for [0x12345680], is being registered. *)
Definition sample_inputs : inputs :=
  Inputs false (Bits.mk 32 305419904) (Bits.mk 8 9)
    (Bits.mk 128 (5 + 6 * 2 ^ 32 + 7 * 2 ^ 64 + 8 * 2 ^ 96))
    true false (Bits.mk 2 2) (Bits.mk 1 0) (Bits.mk 1 0) (Bits.mk 1 1).

(** The [memreq_msg] port before its block has run. *)
Definition sample_memreq : InstBufferDpath.MemReqMsg :=
  InstBufferDpath.MkMemReqMsg 1 (Bits.mk 8 7) (Bits.mk 32 4) (Bits.mk 4 1)
    (Bits.mk 128 0).

(** Ports with every enable low. *)
Definition idle_inputs : inputs :=
  Inputs false (Bits.mk 32 64) (Bits.mk 8 1) (Bits.mk 128 77)
    false false (Bits.mk 2 0) (Bits.mk 1 0) (Bits.mk 1 1) (Bits.mk 1 0).

(** Ports with [reset] high. *)
Definition reset_inputs : inputs :=
  Inputs true (Bits.mk 32 64) (Bits.mk 8 1) (Bits.mk 128 77)
    true true (Bits.mk 2 3) (Bits.mk 1 0) (Bits.mk 1 1) (Bits.mk 1 0).

End InstBufferWiring.

(** * Properties of the [param] handler *)

Module ParamHandlerFacts.

Import Py Proc ParamHandler Scope.

(** *** How the commands run *)

Lemma print_all_run (lines : list string) (st : state) :
  print_all lines st = (Returns tt, State (files st) (stdout st ++ lines)).
Proof.
  revert st. induction lines as [|l ls IH]; intros [m out]; simpl.
  - unfold ret. by rewrite app_nil_r.
  - unfold bind, print. simpl. rewrite IH. simpl.
    by rewrite <- app_assoc.
Qed.

Section Styled.

Variable bold : string -> string.

Lemma launch_help_run (st : state) :
  launch_help bold st
  = (Returns tt, State (files st) (stdout st ++ help_lines bold)).
Proof. apply print_all_run. Qed.

(** The flag test of [launch_update], as a proposition. *)
Lemma flag_test_false help_ key value step all_ :
  help_ || negb (truthy key) || negb (truthy value)
    || negb (truthy step || all_) = false
  ↔ valid_flags help_ key value step all_.
Proof.
  unfold valid_flags.
  destruct help_, (truthy key), (truthy value), (truthy step), all_;
    simpl; intuition congruence.
Qed.

Lemma flag_test_missing help_ key value step all_ :
  missing_flag key value step all_ →
  help_ || negb (truthy key) || negb (truthy value)
    || negb (truthy step || all_) = true.
Proof.
  unfold missing_flag.
  destruct help_, (truthy key), (truthy value), (truthy step), all_;
    simpl; intuition congruence.
Qed.

(** With the help flag or a flag missing: the usage text, nothing else. *)
Lemma launch_update_usage help_ key value step all_ st :
  help_ = true ∨ missing_flag key value step all_ →
  launch_update bold help_ key value step all_ st
  = (Returns tt, State (files st) (stdout st ++ usage_lines bold)).
Proof.
  intros H. unfold launch_update.
  assert (help_ || negb (truthy key) || negb (truthy value)
          || negb (truthy step || all_) = true) as ->.
  { destruct H as [-> | H]; [done | by apply flag_test_missing]. }
  apply print_all_run.
Qed.

(** With all flags: the confirmation line, nothing else. *)
Lemma launch_update_accepts help_ key value step all_ st :
  valid_flags help_ key value step all_ →
  launch_update bold help_ key value step all_ st
  = (Returns tt,
     State (files st) (stdout st ++ [updated_line key value step])).
Proof.
  intros H. unfold launch_update.
  apply flag_test_false in H. by rewrite H.
Qed.

(** Whatever the flags, [launch_update] returns and leaves the files
    as they were. *)
Lemma launch_update_frame help_ key value step all_ st :
  ∃ lines,
    launch_update bold help_ key value step all_ st
    = (Returns tt, State (files st) (stdout st ++ lines)).
Proof.
  destruct (help_ || negb (truthy key) || negb (truthy value)
            || negb (truthy step || all_)) eqn:E.
  - exists (usage_lines bold). unfold launch_update. rewrite E.
    apply print_all_run.
  - exists [updated_line key value step].
    apply launch_update_accepts. by apply flag_test_false.
Qed.

(** [launch] on the single word [update] is [launch_update]. *)
Lemma launch_update_word help_ key value step all_ st :
  launch bold ["update"] help_ key value step all_ st
  = launch_update bold help_ key value step all_ st.
Proof.
  unfold launch. simpl. rewrite andb_false_r. simpl.
  unfold mbind, cmd_bind, bind, mret, cmd_ret, ret. simpl.
  reflexivity.
Qed.

Lemma first_command_unknown (c : string) (rest : list string) :
  c ≠ "update" → c ≠ "help" →
  first_command (c :: rest) = inl AssertionError.
Proof.
  intros Hu Hh. unfold first_command, commands.
  rewrite bool_decide_eq_false_2; [done|].
  rewrite !elem_of_cons, elem_of_nil. tauto.
Qed.

Lemma first_command_known (c : string) (rest : list string) :
  c = "update" ∨ c = "help" →
  first_command (c :: rest) = inr c.
Proof.
  intros H. unfold first_command, commands.
  rewrite bool_decide_eq_true_2; [done|].
  rewrite !elem_of_cons. tauto.
Qed.

(** *** The dispatcher *)

(** C6. A first positional argument other than [update] and [help]
    makes [launch] print the "Unrecognized commands" error and leave
    through [sys.exit( 1 )], a non-zero status, whatever the other
    arguments and flags are. *)
Theorem launch_unknown_command_exits (c : string) (rest : list string)
    help_ key value step all_ st :
  c ≠ "update" → c ≠ "help" →
  let r := launch bold (c :: rest) help_ key value step all_ st in
  r = (SysExit 1,
       State (files st) (stdout st ++ [unrecognized_commands]))
  ∧ fatal r.1.
Proof.
  intros Hu Hh r. subst r. unfold launch.
  rewrite (first_command_unknown c rest Hu Hh).
  simpl. rewrite andb_false_r. split; [reflexivity|].
  unfold fatal. simpl. lia.
Qed.

(** C9. With a valid subcommand followed by further positional
    arguments, [launch] prints a blank line and "param: Unrecognized
    positional args", then behaves as the same subcommand alone with
    the help flag set: the output ends with the usage text (for
    [update]) or the command list (for [help]), the call returns
    normally and the files are as before. *)
Theorem launch_extra_args_show_help (c a : string) (rest : list string)
    help_ key value step all_ st :
  c = "update" ∨ c = "help" →
  let r := launch bold (c :: a :: rest) help_ key value step all_ st in
  r = (print EmptyString ;; print unrecognized_args ;;
       launch bold [c] true key value step all_) st
  ∧ r = (Returns tt,
         State (files st)
           (stdout st ++ [EmptyString; unrecognized_args]
              ++ (if String.eqb c "update" then usage_lines bold
                  else help_lines bold)))
  ∧ exit_status r.1 = 0.
Proof.
  intros Hc r.
  assert (r = (Returns tt,
         State (files st)
           (stdout st ++ [EmptyString; unrecognized_args]
              ++ (if String.eqb c "update" then usage_lines bold
                  else help_lines bold)))) as Hr.
  { subst r. unfold launch.
    rewrite (first_command_known c (a :: rest) Hc).
    simpl. rewrite andb_false_r.
    unfold mbind, cmd_bind, bind, print, mret, cmd_ret, ret. simpl.
    destruct (String.eqb c "update").
    - rewrite launch_update_usage by (by left). simpl.
      by rewrite <- !app_assoc.
    - rewrite launch_help_run. simpl. by rewrite <- !app_assoc. }
  split; [|split; [exact Hr | by rewrite Hr]].
  rewrite Hr. unfold launch.
  rewrite (first_command_known c [] Hc). simpl.
  unfold mbind, cmd_bind, bind, print, mret, cmd_ret, ret. simpl.
  destruct (String.eqb c "update").
  - rewrite launch_update_usage by (by left). simpl.
    by rewrite <- !app_assoc.
  - rewrite launch_help_run. simpl. by rewrite <- !app_assoc.
Qed.

(** *** [launch_update] *)

(** C5. When [key], [value], or both of [step] and [all] are absent,
    [launch_update] (called directly or through [launch] on the word
    [update]) prints the usage text and nothing else, returns so that
    the exit status is 0, and leaves every file as it was. *)
Theorem launch_update_missing_flag_usage help_ key value step all_ st :
  missing_flag key value step all_ →
  let r := launch_update bold help_ key value step all_ st in
  r.1 = Returns tt
  ∧ exit_status r.1 = 0
  ∧ stdout r.2 = (stdout st ++ usage_lines bold)%list
  ∧ files r.2 = files st
  ∧ launch bold ["update"] help_ key value step all_ st = r.
Proof.
  intros H r. subst r. rewrite launch_update_word.
  rewrite launch_update_usage by (by right). simpl. done.
Qed.

(** C8. Running [launch_update] a second time with the same key,
    value and step leaves the files, hence every StepConfig, in the
    state the first run left them in. *)
Theorem launch_update_twice_same_files help_ key value step all_ st :
  let once := (launch_update bold help_ key value step all_ st).2 in
  let twice :=
    ((launch_update bold help_ key value step all_ ;;
      launch_update bold help_ key value step all_) st).2 in
  files twice = files once
  ∧ ∀ sid, config <$> node_of (files twice) sid
           = config <$> node_of (files once) sid.
Proof.
  intros once twice.
  assert (files twice = files once) as E; [|by rewrite E].
  subst once twice. unfold mbind, cmd_bind, bind.
  destruct (launch_update_frame help_ key value step all_ st)
    as [l1 ->].
  destruct (launch_update_frame help_ key value step all_
              (State (files st) (stdout st ++ l1))) as [l2 ->].
  reflexivity.
Qed.

(** C2, as the code has it. A call of [launch_update] whose [--step]
    argument names no node of the graph changes no configure.yml and
    no run script. The code looks no step up, so it reports no missing
    step: it returns normally and prints exactly what it prints for any
    step, the usage text when the help flag is set or a required flag
    is missing and the one "Updated parameter" line otherwise, and
    nothing else. *)
Theorem launch_update_unknown_step_no_change help_ key value step all_
    st :
  ¬ step_exists (files st) step →
  let r := launch_update bold help_ key value step all_ st in
  files r.2 = files st
  ∧ r.1 = Returns tt
  ∧ stdout r.2
    = (stdout st
       ++ (if help_ || negb (truthy key) || negb (truthy value)
              || negb (truthy step || all_)
           then usage_lines bold
           else [updated_line key value step]))%list.
Proof.
  intros _ r. subst r. unfold launch_update.
  destruct (help_ || negb (truthy key) || negb (truthy value)
            || negb (truthy step || all_)).
  - unfold print_help. rewrite print_all_run. simpl. done.
  - simpl. done.
Qed.

(** C3, as the code has it. A targeted step whose parameters lack the
    key keeps its configure.yml and run script, and the key is still
    absent from its parameters after the call. *)
Theorem launch_update_keyless_step_untouched help_ key value step all_
    st (sid : string) (nd : node) :
  targeted step all_ sid →
  node_of (files st) sid = Some nd →
  parameters (config nd) !! str key = None →
  let r := launch_update bold help_ key value step all_ st in
  node_of (files r.2) sid = Some nd
  ∧ parameter_of (files r.2) sid key = None.
Proof.
  intros _ Hnd Hkey r. subst r.
  destruct (launch_update_frame help_ key value step all_ st)
    as [l ->]. simpl.
  split; [exact Hnd|]. unfold parameter_of. by rewrite Hnd.
Qed.


End Styled.

(** *** The handler on concrete command lines *)

Lemma launch_unknown_command_exits_witness :
  "remove" ≠ "update" ∧ "remove" ≠ "help"
  ∧ let r := launch no_style ["remove"; "now"] true PyNone PyNone PyNone
               false (at_prompt one_step_graph) in
    r = (SysExit 1, State one_step_graph [unrecognized_commands])
    ∧ fatal r.1.
Proof.
  split; [discriminate|]. split; [discriminate|].
  apply (launch_unknown_command_exits no_style "remove" ["now"] true
           PyNone PyNone PyNone false (at_prompt one_step_graph));
    discriminate.
Defined.

Lemma launch_extra_args_show_help_witness :
  ("update" = "update" ∨ "update" = "help")
  ∧ let r := launch no_style ["update"; "now"] false
               (PyStr "clock_period") (PyStr "2.0") (PyStr "5") false
               (at_prompt one_step_graph) in
    r = (print EmptyString ;; print unrecognized_args ;;
         launch no_style ["update"] true (PyStr "clock_period")
           (PyStr "2.0") (PyStr "5") false) (at_prompt one_step_graph)
    ∧ r = (Returns tt,
           State one_step_graph
             ([EmptyString; unrecognized_args] ++ usage_lines no_style))
    ∧ exit_status r.1 = 0.
Proof.
  split; [left; reflexivity|].
  apply (launch_extra_args_show_help no_style "update" "now" [] false
           (PyStr "clock_period") (PyStr "2.0") (PyStr "5") false
           (at_prompt one_step_graph)).
  left; reflexivity.
Defined.

Lemma launch_update_missing_flag_usage_witness :
  missing_flag (PyStr "clock_period") PyNone (PyStr "5") false
  ∧ let r := launch_update no_style false (PyStr "clock_period") PyNone
               (PyStr "5") false (at_prompt one_step_graph) in
    r.1 = Returns tt
    ∧ exit_status r.1 = 0
    ∧ stdout r.2 = usage_lines no_style
    ∧ files r.2 = one_step_graph
    ∧ launch no_style ["update"] false (PyStr "clock_period") PyNone
        (PyStr "5") false (at_prompt one_step_graph) = r.
Proof.
  split; [right; left; reflexivity|].
  apply (launch_update_missing_flag_usage no_style false
           (PyStr "clock_period") PyNone (PyStr "5") false
           (at_prompt one_step_graph)).
  right; left; reflexivity.
Defined.

Lemma step_99_absent : ¬ step_exists one_step_graph (PyStr "99").
Proof.
  unfold step_exists, node_of, one_step_graph. simpl.
  rewrite lookup_singleton_ne by discriminate. by intros [? ?].
Qed.

Lemma step_5_node : node_of one_step_graph "5" = Some clock_node.
Proof.
  unfold node_of, one_step_graph. simpl. by rewrite lookup_singleton_eq.
Qed.

Lemma step_5_clock_period :
  parameter_of one_step_graph "5" (PyStr "clock_period")
  = Some (PyStr "1.0").
Proof.
  unfold parameter_of. rewrite step_5_node. simpl.
  by rewrite lookup_singleton_eq.
Qed.

Lemma step_5_no_vdd :
  parameters (config clock_node) !! str (PyStr "vdd") = None.
Proof. simpl. by rewrite lookup_singleton_ne. Qed.

(** C2 at step 99 of the one-step graph: the amended statement. *)
Lemma launch_update_unknown_step_no_change_witness :
  ¬ step_exists (files (at_prompt one_step_graph)) (PyStr "99")
  ∧ let r := launch_update no_style false (PyStr "clock_period")
               (PyStr "2.0") (PyStr "99") false
               (at_prompt one_step_graph) in
    files r.2 = one_step_graph
    ∧ r.1 = Returns tt
    ∧ stdout r.2
      = [updated_line (PyStr "clock_period") (PyStr "2.0") (PyStr "99")].
Proof.
  split; [exact step_99_absent|].
  apply (launch_update_unknown_step_no_change no_style false
           (PyStr "clock_period") (PyStr "2.0") (PyStr "99") false
           (at_prompt one_step_graph)).
  exact step_99_absent.
Defined.

(** C2 as stated fails: [update --step 99 --key clock_period --value 2.0]
    on a graph whose only step is 5 does leave the files alone, but it
    is not fatal: it prints the confirmation line for step 99 and
    returns, so the exit status is 0. *)
Lemma launch_update_unknown_step_not_reported :
  let st := at_prompt one_step_graph in
  let r := launch_update no_style false (PyStr "clock_period")
             (PyStr "2.0") (PyStr "99") false st in
  ¬ step_exists (files st) (PyStr "99")
  ∧ r = (Returns tt,
         State one_step_graph
           [updated_line (PyStr "clock_period") (PyStr "2.0")
              (PyStr "99")])
  ∧ ¬ (files r.2 = files st ∧ fatal r.1).
Proof.
  split; [exact step_99_absent|]. split; [reflexivity|].
  intros [_ Hfatal]. by apply Hfatal.
Qed.

(** C3 at step 5 and the key [vdd], which step 5 does not have: the
    amended statement. *)
Lemma launch_update_keyless_step_untouched_witness :
  targeted (PyStr "5") false "5"
  ∧ node_of (files (at_prompt one_step_graph)) "5" = Some clock_node
  ∧ parameters (config clock_node) !! str (PyStr "vdd") = None
  ∧ let r := launch_update no_style false (PyStr "vdd") (PyStr "0.9")
               (PyStr "5") false (at_prompt one_step_graph) in
    node_of (files r.2) "5" = Some clock_node
    ∧ parameter_of (files r.2) "5" (PyStr "vdd") = None.
Proof.
  assert (targeted (PyStr "5") false "5") as Ht
    by (right; split; reflexivity).
  split; [exact Ht|]. split; [exact step_5_node|].
  split; [exact step_5_no_vdd|].
  apply (launch_update_keyless_step_untouched no_style false
           (PyStr "vdd") (PyStr "0.9") (PyStr "5") false
           (at_prompt one_step_graph) "5" clock_node Ht step_5_node
           step_5_no_vdd).
Defined.

(** C3 as stated fails: [update --all --key vdd --value 0.9] targets
    step 5, which has no [vdd]. Step 5 is left alone, but the single
    line printed is the confirmation line with the text of the unset
    [--step] argument, [None]: no printed line names step 5. *)
Lemma launch_update_all_prints_no_skip_notice :
  let st := at_prompt one_step_graph in
  let r := launch_update no_style false (PyStr "vdd") (PyStr "0.9")
             PyNone true st in
  targeted PyNone true "5"
  ∧ parameter_of (files st) "5" (PyStr "vdd") = None
  ∧ stdout r.2 = [updated_line (PyStr "vdd") (PyStr "0.9") PyNone]
  ∧ ¬ (node_of (files r.2) "5" = node_of (files st) "5"
       ∧ ∃ line, stdout r.2 = [line]
                 ∧ names_step_and_key "5" (PyStr "vdd") line = true).
Proof.
  split; [by left|]. split.
  { unfold parameter_of. simpl files. rewrite step_5_node.
    exact step_5_no_vdd. }
  split; [reflexivity|].
  intros [_ (line & Hout & Hnames)].
  simpl in Hout. injection Hout as <-.
  vm_compute in Hnames. discriminate.
Qed.



(** C1 on the code: [update --step 5 --key clock_period --value 2.0],
    where step 5 has [clock_period: 1.0]. The call announces the update
    and returns, yet [parameters["clock_period"]] of step 5 is still
    [1.0] and the node, run script included, is the one from before. *)
Theorem launch_update_parameter_stays :
  let st := at_prompt one_step_graph in
  let r := launch_update no_style false (PyStr "clock_period")
             (PyStr "2.0") (PyStr "5") false st in
  parameter_of (files st) "5" (PyStr "clock_period") = Some (PyStr "1.0")
  ∧ r.1 = Returns tt
  ∧ stdout r.2
    = [updated_line (PyStr "clock_period") (PyStr "2.0") (PyStr "5")]
  ∧ parameter_of (files r.2) "5" (PyStr "clock_period")
    = Some (PyStr "1.0")
  ∧ parameter_of (files r.2) "5" (PyStr "clock_period")
    ≠ Some (PyStr "2.0")
  ∧ node_of (files r.2) "5" = Some clock_node.
Proof.
  simpl files.
  split; [exact step_5_clock_period|]. split; [reflexivity|].
  split; [reflexivity|]. split; [exact step_5_clock_period|].
  split; [|exact step_5_node].
  rewrite step_5_clock_period. discriminate.
Qed.

(** C7 on the code: [update --step 5 --key vdd --value 0.9], where step
    5 has no parameter [vdd]. Nothing is updated (the files are the
    same and [vdd] is still absent), yet the confirmation line for
    step 5 is printed. *)
Theorem launch_update_confirms_without_update :
  let st := at_prompt one_step_graph in
  let r := launch_update no_style false (PyStr "vdd") (PyStr "0.9")
             (PyStr "5") false st in
  parameter_of (files st) "5" (PyStr "vdd") = None
  ∧ files r.2 = files st
  ∧ parameter_of (files r.2) "5" (PyStr "vdd") = None
  ∧ stdout r.2 = [updated_line (PyStr "vdd") (PyStr "0.9") (PyStr "5")].
Proof.
  simpl files.
  assert (parameter_of one_step_graph "5" (PyStr "vdd") = None) as H.
  { unfold parameter_of. rewrite step_5_node. exact step_5_no_vdd. }
  split; [exact H|]. split; [reflexivity|]. split; [exact H|].
  reflexivity.
Qed.

End ParamHandlerFacts.

(** * Properties of the instruction-buffer datapath *)

Module InstBufferFacts.

Import InstBufferDpath.

(** *** Bit vectors *)

Lemma make_zero (n : Z) : Bits.make n 0 = Bits.mk n 0.
Proof. unfold Bits.make. by rewrite Z.land_0_l. Qed.

(** The upper slice of a value that fits [hi] bits is its quotient. *)
Lemma slice_top_uint (b : Bits.t) (lo hi : Z) :
  0 <= lo <= hi → 0 <= Bits.uint b < 2 ^ hi →
  Bits.uint (Bits.slice b lo hi) = Bits.uint b / 2 ^ lo.
Proof.
  intros Hlo Hb. unfold Bits.slice. simpl.
  rewrite Z.land_ones by lia. rewrite Z.shiftr_div_pow2 by lia.
  apply Z.mod_small. split.
  - apply Z.div_pos; lia.
  - apply Z.div_lt_upper_bound; [lia|].
    rewrite <- Z.pow_add_r by lia.
    replace (lo + (hi - lo)) with hi by lia. lia.
Qed.

(** Putting [n] zero bits below [a] multiplies by [2^n]. *)
Lemma concat_zero_uint (a : Bits.t) (n : Z) :
  0 <= n →
  Bits.uint (Bits.concat a (Bits.make n 0)) = Bits.uint a * 2 ^ n.
Proof.
  intros Hn. rewrite make_zero. unfold Bits.concat. simpl.
  rewrite Z.lor_0_r. by apply Z.shiftl_mul_pow2.
Qed.

Lemma clear_low_bits (r n : Z) :
  0 <= n → r / 2 ^ n * 2 ^ n = r - r mod 2 ^ n.
Proof.
  intros Hn. assert (0 < 2 ^ n) by lia.
  pose proof (Z.div_mod r (2 ^ n)). lia.
Qed.

Lemma clear_low_bits_testbit (r n i : Z) :
  0 <= n → 0 <= i →
  Z.testbit (r / 2 ^ n * 2 ^ n) i = (n <=? i) && Z.testbit r i.
Proof.
  intros Hn Hi.
  rewrite <- Z.shiftr_div_pow2, <- Z.shiftl_mul_pow2 by lia.
  destruct (Z.leb_spec n i) as [Hle | Hlt]; simpl.
  - rewrite Z.shiftl_spec by lia. rewrite Z.shiftr_spec by lia.
    f_equal. lia.
  - apply Z.shiftl_spec_low. lia.
Qed.

(** *** The memory request *)

(** C10. Whatever the registered request address and the previous
    contents of the port, [comb_memreq_msg_pack] drives a read:
    [type_] is [TYPE_READ], [opaque] is 0 on 8 bits, [len] is 0 on 4
    bits, and [addr] is the 32-bit registered address with its low
    [line_bw] bits cleared (a multiple of the line size, equal to the
    register in every bit from [line_bw] up). *)
Theorem comb_memreq_msg_pack_aligned_read (TYPE_READ line_nbytes : Z)
    (reg : Bits.t) (msg : MemReqMsg) :
  0 < line_nbytes →
  line_bw line_nbytes <= addr_nbits →
  Bits.nbits reg = addr_nbits → Bits.wf reg →
  let m := comb_memreq_msg_pack TYPE_READ line_nbytes reg msg in
  type_ m = TYPE_READ
  ∧ opaque m = Bits.mk 8 0
  ∧ len m = Bits.mk 4 0
  ∧ Bits.nbits (addr m) = 32
  ∧ Bits.uint (addr m)
    = Bits.uint reg - Bits.uint reg mod 2 ^ line_bw line_nbytes
  ∧ Bits.uint (addr m) mod 2 ^ line_bw line_nbytes = 0
  ∧ ∀ i, 0 <= i →
      Z.testbit (Bits.uint (addr m)) i
      = (line_bw line_nbytes <=? i) && Z.testbit (Bits.uint reg) i.
Proof.
  intros Hn Hbw Hw [_ Hr] m. rewrite Hw in Hr.
  assert (0 <= line_bw line_nbytes) as Hbw0
    by (unfold line_bw, Bits.clog2; apply Z.log2_up_nonneg).
  assert (Bits.uint (addr m)
          = Bits.uint reg / 2 ^ line_bw line_nbytes
            * 2 ^ line_bw line_nbytes) as Haddr.
  { subst m. unfold comb_memreq_msg_pack. simpl addr.
    rewrite concat_zero_uint by done.
    rewrite slice_top_uint; [done | lia | exact Hr]. }
  split; [reflexivity|]. split; [reflexivity|]. split; [reflexivity|].
  split.
  { subst m. unfold comb_memreq_msg_pack, Bits.concat, Bits.slice,
      Bits.make, addr_nbits. simpl. lia. }
  rewrite Haddr. split; [by apply clear_low_bits|]. split.
  - apply Z.mod_mul. lia.
  - intros i Hi. by apply clear_low_bits_testbit.
Qed.

(** A 16-byte line and the registered address [0x12345678]: the request
    goes to [0x12345670]. *)
Lemma comb_memreq_msg_pack_aligned_read_witness :
  let reg := Bits.mk 32 305419896 in
  let msg := MkMemReqMsg 1 (Bits.mk 8 7) (Bits.mk 32 4) (Bits.mk 4 1)
               (Bits.mk 128 0) in
  0 < 16 ∧ line_bw 16 <= addr_nbits
  ∧ Bits.nbits reg = addr_nbits ∧ Bits.wf reg
  ∧ let m := comb_memreq_msg_pack 0 16 reg msg in
    type_ m = 0
    ∧ opaque m = Bits.mk 8 0
    ∧ len m = Bits.mk 4 0
    ∧ Bits.nbits (addr m) = 32
    ∧ Bits.uint (addr m) = 305419896 - 305419896 mod 2 ^ line_bw 16
    ∧ Bits.uint (addr m) mod 2 ^ line_bw 16 = 0
    ∧ ∀ i, 0 <= i →
        Z.testbit (Bits.uint (addr m)) i
        = (line_bw 16 <=? i) && Z.testbit 305419896 i.
Proof.
  intros reg msg.
  assert (0 < 16) as H1 by lia.
  assert (line_bw 16 <= addr_nbits) as H2 by (vm_compute; discriminate).
  assert (Bits.nbits reg = addr_nbits) as H3 by reflexivity.
  assert (Bits.wf reg) as H4 by (unfold Bits.wf; simpl; lia).
  split; [exact H1|]. split; [exact H2|]. split; [exact H3|].
  split; [exact H4|].
  apply (comb_memreq_msg_pack_aligned_read 0 16 reg msg H1 H2 H3 H4).
Defined.

Example request_address_0x12345678 :
  addr (comb_memreq_msg_pack 0 16 (Bits.mk 32 305419896)
          (MkMemReqMsg 1 (Bits.mk 8 7) (Bits.mk 32 4) (Bits.mk 4 1)
             (Bits.mk 128 0)))
  = Bits.mk 32 305419888.
Proof. reflexivity. Qed.

End InstBufferFacts.

(** * Further properties of the [param] handler *)

Module LaunchFacts.

Import Py Proc ParamHandler Scope ParamHandlerFacts.

(** *** Text *)

Lemma prefix_append (n rest : string) : String.prefix n (n +:+ rest) = true.
Proof.
  induction n as [|a n IH]; simpl.
  - by destruct rest.
  - destruct (Ascii.ascii_dec a a) as [_|Hne]; [exact IH | by destruct Hne].
Qed.

Lemma contains_prefix (n line : string) :
  String.prefix n line = true → contains n line = true.
Proof. intros H. destruct line; cbn [contains]; rewrite H; done. Qed.

Lemma contains_after (before n line : string) :
  contains n line = true → contains n (before +:+ line) = true.
Proof.
  intros H. induction before as [|a before IH]; [exact H|].
  change (String a before +:+ line) with (String a (before +:+ line)).
  cbn [contains]. rewrite IH. apply orb_true_r.
Qed.

Lemma contains_here (n rest : string) : contains n (n +:+ rest) = true.
Proof. apply contains_prefix, prefix_append. Qed.

Lemma updated_line_not_error key value step :
  updated_line key value step ≠ unrecognized_commands.
Proof. unfold updated_line, unrecognized_commands. simpl. discriminate. Qed.

Section Styled.

Variable bold : string -> string.

(** *** What a call of [launch] prints *)

Lemma launch_update_lines help_ key value step all_ st :
  launch_update bold help_ key value step all_ st
  = (Returns tt,
     State (files st)
       (stdout st
        ++ (if help_ || negb (truthy key) || negb (truthy value)
               || negb (truthy step || all_)
            then usage_lines bold
            else [updated_line key value step]))).
Proof.
  unfold launch_update.
  destruct (help_ || negb (truthy key) || negb (truthy value)
            || negb (truthy step || all_)); [apply print_all_run | done].
Qed.

Lemma launch_no_command help_ key value step all_ st :
  launch bold [] help_ key value step all_ st
  = if help_
    then (Returns tt, State (files st) (stdout st ++ help_lines bold))
    else (SysExit 1, State (files st) (stdout st ++ [unrecognized_commands])).
Proof.
  unfold launch. destruct help_; simpl; [apply launch_help_run | done].
Qed.

Lemma launch_one_word (c : string) help_ key value step all_ st :
  launch bold [c] help_ key value step all_ st
  = if String.eqb c "update"
    then launch_update bold help_ key value step all_ st
    else if String.eqb c "help"
    then (Returns tt, State (files st) (stdout st ++ help_lines bold))
    else (SysExit 1, State (files st) (stdout st ++ [unrecognized_commands])).
Proof.
  destruct (String.eqb_spec c "update") as [-> | Hu].
  { apply launch_update_word. }
  destruct (String.eqb_spec c "help") as [-> | Hh].
  { unfold launch. simpl. rewrite andb_false_r. simpl.
    unfold mbind, cmd_bind, bind, mret, cmd_ret, ret. simpl.
    apply launch_help_run. }
  unfold launch. rewrite (first_command_unknown bold c [] Hu Hh).
  simpl. by rewrite andb_false_r.
Qed.

Lemma launch_more_words (c a : string) (rest : list string)
    help_ key value step all_ st :
  launch bold (c :: a :: rest) help_ key value step all_ st
  = if String.eqb c "update"
    then (Returns tt,
          State (files st)
            (stdout st ++ [EmptyString; unrecognized_args]
               ++ usage_lines bold))
    else if String.eqb c "help"
    then (Returns tt,
          State (files st)
            (stdout st ++ [EmptyString; unrecognized_args]
               ++ help_lines bold))
    else (SysExit 1, State (files st) (stdout st ++ [unrecognized_commands])).
Proof.
  destruct (String.eqb_spec c "update") as [-> | Hu].
  { unfold launch. simpl.
    rewrite andb_false_r. simpl.
    unfold mbind, cmd_bind, bind, print, mret, cmd_ret, ret. simpl.
    rewrite launch_update_usage by (by left). simpl.
    by rewrite <- !app_assoc. }
  destruct (String.eqb_spec c "help") as [-> | Hh].
  { unfold launch. simpl. rewrite andb_false_r. simpl.
    unfold mbind, cmd_bind, bind, print, mret, cmd_ret, ret. simpl.
    rewrite launch_help_run. simpl. by rewrite <- !app_assoc. }
  unfold launch. rewrite (first_command_unknown bold c (a :: rest) Hu Hh).
  simpl. by rewrite andb_false_r.
Qed.

(** X1. [launch] only prints. Whatever the positional arguments and the
    flags, the way the call ends and the lines it prints are fixed by the
    arguments alone, at least one line is printed, the lines are added
    after what the terminal already shows, and the files of [.mflowgen]
    are the ones from before. *)
Theorem launch_only_prints (args : list string) help_ key value step all_ :
  ∃ (c : completion unit) (lines : list string),
    lines ≠ []
    ∧ ∀ st, launch bold args help_ key value step all_ st
            = (c, State (files st) (stdout st ++ lines)).
Proof.
  destruct args as [|c [|a rest]].
  - destruct help_.
    + exists (Returns tt), (help_lines bold). split; [done|].
      intros st. by rewrite launch_no_command.
    + exists (SysExit 1), [unrecognized_commands]. split; [done|].
      intros st. by rewrite launch_no_command.
  - destruct (String.eqb c "update") eqn:Eu;
      [|destruct (String.eqb c "help") eqn:Eh].
    + destruct (help_ || negb (truthy key) || negb (truthy value)
                || negb (truthy step || all_)) eqn:E.
      * exists (Returns tt), (usage_lines bold). split; [done|].
        intros st. rewrite launch_one_word, Eu, launch_update_lines.
        by rewrite E.
      * exists (Returns tt), [updated_line key value step].
        split; [done|]. intros st.
        rewrite launch_one_word, Eu, launch_update_lines. by rewrite E.
    + exists (Returns tt), (help_lines bold). split; [done|].
      intros st. by rewrite launch_one_word, Eu, Eh.
    + exists (SysExit 1), [unrecognized_commands]. split; [done|].
      intros st. by rewrite launch_one_word, Eu, Eh.
  - destruct (String.eqb c "update") eqn:Eu;
      [|destruct (String.eqb c "help") eqn:Eh].
    + exists (Returns tt),
        ([EmptyString; unrecognized_args] ++ usage_lines bold)%list.
      split; [done|]. intros st. by rewrite launch_more_words, Eu.
    + exists (Returns tt),
        ([EmptyString; unrecognized_args] ++ help_lines bold)%list.
      split; [done|]. intros st. by rewrite launch_more_words, Eu, Eh.
    + exists (SysExit 1), [unrecognized_commands]. split; [done|].
      intros st. by rewrite launch_more_words, Eu, Eh.
Qed.

(** X2. [launch] ends the process with a failure status exactly when
    there is no usable command word: no positional argument at all
    without the help flag, or a first argument other than [update] and
    [help]. In that case the status is 1 and the only line printed is
    the "Unrecognized commands" message. *)
Theorem launch_fatal_iff (args : list string) help_ key value step all_ st :
  let r := launch bold args help_ key value step all_ st in
  (fatal r.1 ↔ match args with
               | [] => help_ = false
               | c :: _ => c ≠ "update" ∧ c ≠ "help"
               end)
  ∧ (fatal r.1 →
     r = (SysExit 1,
          State (files st) (stdout st ++ [unrecognized_commands]))).
Proof.
  intros r. subst r. unfold fatal.
  assert (∀ (P : Prop) (lines : list string), ¬ P →
            (exit_status (Returns tt : completion unit) ≠ 0 ↔ P)
            ∧ (exit_status (Returns tt : completion unit) ≠ 0 →
               (Returns tt, State (files st) (stdout st ++ lines))
               = (SysExit 1,
                  State (files st) (stdout st ++ [unrecognized_commands]))))
    as Hret.
  { intros P lines HP. simpl. split; [split|]; intros H; by exfalso; auto. }
  assert (∀ (P : Prop), P →
            (exit_status (SysExit 1 : completion unit) ≠ 0 ↔ P)
            ∧ (exit_status (SysExit 1 : completion unit) ≠ 0 →
               (SysExit 1 : completion unit,
                State (files st) (stdout st ++ [unrecognized_commands]))
               = (SysExit 1,
                  State (files st) (stdout st ++ [unrecognized_commands]))))
    as Hexit.
  { intros P HP. simpl. split; [split|]; intros H; [done | lia | done]. }
  destruct args as [|c [|a rest]].
  - rewrite launch_no_command. destruct help_; simpl.
    + by apply Hret.
    + by apply Hexit.
  - rewrite launch_one_word, launch_update_lines.
    destruct (String.eqb_spec c "update") as [-> | Hu];
      [|destruct (String.eqb_spec c "help") as [-> | Hh]]; simpl.
    + apply Hret. by intros [? _].
    + apply Hret. by intros [_ ?].
    + by apply Hexit.
  - rewrite launch_more_words.
    destruct (String.eqb_spec c "update") as [-> | Hu];
      [|destruct (String.eqb_spec c "help") as [-> | Hh]]; simpl.
    + apply Hret. by intros [? _].
    + apply Hret. by intros [_ ?].
    + by apply Hexit.
Qed.

(** X3. The confirmation line is what [launch] adds to the terminal
    exactly when the positional arguments are the single word [update],
    the help flag is off, and key, value and one of step/all are set. No
    other command line makes [launch] print just that line. *)
Theorem launch_confirms_iff (args : list string) help_ key value step all_
    st :
  (launch bold args help_ key value step all_ st).2
  = State (files st) (stdout st ++ [updated_line key value step])
  ↔ args = ["update"] ∧ valid_flags help_ key value step all_.
Proof.
  assert (∀ (out l1 l2 : list string),
            length l1 ≠ length l2 →
            State (files st) (out ++ l1) ≠ State (files st) (out ++ l2))
    as Hlen.
  { intros out l1 l2 Hne [= H]. apply app_inv_head in H. by subst. }
  assert (State (files st) (stdout st ++ [unrecognized_commands])
          ≠ State (files st) (stdout st ++ [updated_line key value step]))
    as Herr.
  { intros [= H]. apply app_inv_head in H. injection H as H.
    by apply (updated_line_not_error key value step). }
  split.
  - destruct args as [|c [|a rest]].
    + rewrite launch_no_command. destruct help_; simpl; intros H.
      * by apply Hlen in H.
      * by apply Herr in H.
    + rewrite launch_one_word, launch_update_lines.
      destruct (String.eqb_spec c "update") as [-> | Hu];
        [|destruct (String.eqb c "help")]; simpl; intros H.
      * split; [done|]. apply flag_test_false.
        destruct (help_ || negb (truthy key) || negb (truthy value)
                  || negb (truthy step || all_)); [|done].
        by apply Hlen in H.
      * by apply Hlen in H.
      * by apply Herr in H.
    + rewrite launch_more_words.
      destruct (String.eqb c "update"); [|destruct (String.eqb c "help")];
        simpl; intros H.
      * by apply Hlen in H.
      * by apply Hlen in H.
      * by apply Herr in H.
  - intros [-> Hv]. rewrite launch_one_word. simpl.
    by rewrite (launch_update_accepts bold help_ key value step all_ st Hv).
Qed.

(** X4. Asking for help always succeeds and never confirms an update:
    the help flag without a command word and the word [help] (with any
    flags, a complete set of update flags included) print the command
    list; the word [update] with the help flag prints the usage text
    even when key, value and step are all given. *)
Theorem launch_help_requests help_ key value step all_ st :
  launch bold [] true key value step all_ st
  = (Returns tt, State (files st) (stdout st ++ help_lines bold))
  ∧ launch bold ["help"] help_ key value step all_ st
    = (Returns tt, State (files st) (stdout st ++ help_lines bold))
  ∧ launch bold ["update"] true key value step all_ st
    = (Returns tt, State (files st) (stdout st ++ usage_lines bold)).
Proof.
  split; [by rewrite launch_no_command|].
  split; [by rewrite launch_one_word|].
  rewrite launch_one_word, launch_update_lines. done.
Qed.

(** X5. A step given as the integer 0 counts as no step: with key and
    value set and [--all] off, [launch_update] confirms for a non-zero
    integer step and prints the usage text for 0, while the text ["0"]
    (any non-empty text) is accepted as a step. *)
Theorem launch_update_integer_step key value (n : Z) (s : string) st :
  truthy key = true → truthy value = true → s ≠ EmptyString →
  launch_update bold false key value (PyInt n) false st
  = (Returns tt,
     State (files st)
       (stdout st ++ (if n =? 0 then usage_lines bold
                      else [updated_line key value (PyInt n)])))
  ∧ launch_update bold false key value (PyStr s) false st
    = (Returns tt,
       State (files st) (stdout st ++ [updated_line key value (PyStr s)])).
Proof.
  intros Hk Hv Hs. rewrite !launch_update_lines. simpl.
  rewrite Hk, Hv. simpl.
  destruct (String.eqb_spec s EmptyString) as [-> | _]; [done|].
  rewrite !orb_false_r. simpl.
  by destruct (n =? 0).
Qed.

End Styled.

(** X6. The confirmation line carries the text of the key, of the value
    and of the step it was given. *)
Theorem updated_line_names_arguments key value step :
  contains (str key) (updated_line key value step) = true
  ∧ contains (str value) (updated_line key value step) = true
  ∧ contains (str step) (updated_line key value step) = true.
Proof.
  unfold updated_line. split; [|split].
  - do 2 apply contains_after. apply contains_here.
  - do 6 apply contains_after. apply contains_here.
  - do 10 apply contains_after. apply contains_here.
Qed.

Lemma launch_update_integer_step_witness :
  truthy (PyStr "clock_period") = true ∧ truthy (PyStr "2.0") = true
  ∧ "0" ≠ EmptyString
  ∧ launch_update no_style false (PyStr "clock_period") (PyStr "2.0")
      (PyInt 0) false (at_prompt one_step_graph)
    = (Returns tt, State one_step_graph (usage_lines no_style))
  ∧ launch_update no_style false (PyStr "clock_period") (PyStr "2.0")
      (PyStr "0") false (at_prompt one_step_graph)
    = (Returns tt,
       State one_step_graph
         [updated_line (PyStr "clock_period") (PyStr "2.0") (PyStr "0")]).
Proof.
  split; [reflexivity|]. split; [reflexivity|]. split; [discriminate|].
  apply (launch_update_integer_step no_style (PyStr "clock_period")
           (PyStr "2.0") 0 "0" (at_prompt one_step_graph));
    [reflexivity | reflexivity | discriminate].
Defined.

End LaunchFacts.

(** * Further properties of the instruction-buffer datapath *)

Module DpathFacts.

Import InstBufferWiring.

Local Abbreviation line_bw := InstBufferDpath.line_bw.
Local Abbreviation line_nbits := InstBufferDpath.line_nbits.
Local Abbreviation tag_nbits := InstBufferDpath.tag_nbits.
Local Abbreviation comb_memreq_msg_pack :=
  InstBufferDpath.comb_memreq_msg_pack.

(** *** Addresses *)

Lemma line_bw_nonneg (line_nbytes : Z) : 0 <= line_bw line_nbytes.
Proof. apply Z.log2_up_nonneg. Qed.

Lemma line_bw_pow2 (k : Z) : 0 <= k → line_bw (2 ^ k) = k.
Proof. intros Hk. by apply Z.log2_up_pow2. Qed.

(** The request address on the memory side, as a number. *)
Lemma memreq_addr_uint (T line_nbytes : Z) (reg : Bits.t)
    (msg : InstBufferDpath.MemReqMsg) :
  line_bw line_nbytes <= 32 → fits 32 reg →
  InstBufferDpath.addr (comb_memreq_msg_pack T line_nbytes reg msg)
  = Bits.mk 32 (Bits.uint reg / 2 ^ line_bw line_nbytes
                * 2 ^ line_bw line_nbytes).
Proof.
  intros Hbw [Hn Hr]. pose proof (line_bw_nonneg line_nbytes) as H0.
  unfold comb_memreq_msg_pack. cbn [InstBufferDpath.addr].
  pose proof (InstBufferFacts.concat_zero_uint
                (Bits.slice reg (line_bw line_nbytes)
                   InstBufferDpath.addr_nbits)
                (line_bw line_nbytes) H0) as Hc.
  rewrite InstBufferFacts.slice_top_uint in Hc
    by (unfold InstBufferDpath.addr_nbits; lia).
  assert (Bits.nbits
            (Bits.concat
               (Bits.slice reg (line_bw line_nbytes)
                  InstBufferDpath.addr_nbits)
               (Bits.make (line_bw line_nbytes) 0)) = 32) as Hw.
  { unfold Bits.concat, Bits.slice, Bits.make, InstBufferDpath.addr_nbits.
    simpl. lia. }
  destruct (Bits.concat _ _) as [w v]. simpl in Hc, Hw. by subst.
Qed.

(** The word select, as a number. *)
Lemma read_word_sel_uint (line_nbytes : Z) (r : registers) :
  2 <= line_bw line_nbytes →
  Bits.uint (read_word_sel line_nbytes r)
  = (Bits.uint (buffreq_addr_reg r) / 4) mod 2 ^ (line_bw line_nbytes - 2).
Proof.
  intros Hbw. unfold read_word_sel, Bits.slice. simpl.
  rewrite Z.land_ones by lia. by rewrite Z.shiftr_div_pow2 by lia.
Qed.

Lemma req_tag_uint (line_nbytes : Z) (r : registers) :
  line_bw line_nbytes <= 32 → fits 32 (buffreq_addr_reg r) →
  req_tag line_nbytes r
  = Bits.mk (32 - line_bw line_nbytes)
      (Bits.uint (buffreq_addr_reg r) / 2 ^ line_bw line_nbytes).
Proof.
  intros Hbw [Hn Hr]. pose proof (line_bw_nonneg line_nbytes) as H0.
  pose proof (InstBufferFacts.slice_top_uint (buffreq_addr_reg r)
                (line_bw line_nbytes) 32 (conj H0 Hbw) Hr) as Hs.
  unfold req_tag, InstBufferDpath.addr_nbits.
  destruct (Bits.slice _ _ _) as [w v] eqn:E. simpl in Hs. subst v.
  apply (f_equal Bits.nbits) in E. simpl in E. by subst w.
Qed.

Lemma word_select_bound (k : Z) :
  2 <= k → line_nwords (2 ^ k) = 2 ^ (k - 2) ∧ 0 < 2 ^ (k - 2).
Proof.
  intros Hk.
  assert (0 < 2 ^ (k - 2)) as Hpos by (apply Z.pow_pos_nonneg; lia).
  split; [|exact Hpos].
  unfold line_nwords, line_nbits, InstBufferDpath.line_nbits,
    InstBufferDpath.data_nbits.
  replace k with (2 + (k - 2)) at 1 by lia.
  rewrite Z.pow_add_r by lia.
  replace (2 ^ 2 * 2 ^ (k - 2) * 8) with (2 ^ (k - 2) * 32) by lia.
  by apply Z.div_mul.
Qed.

(** X7. The registered request address is the sum of its three parts as
    the datapath cuts it: the line address sent to memory, four times
    the word select of [read_word_sel_mux], and the two byte-offset bits
    that are dropped; the word select is below [2^(line_bw-2)]. *)
Theorem request_address_splits (T line_nbytes : Z) (r : registers)
    (msg : InstBufferDpath.MemReqMsg) :
  2 <= line_bw line_nbytes <= 32 →
  fits 32 (buffreq_addr_reg r) →
  Bits.uint (buffreq_addr_reg r)
  = Bits.uint (InstBufferDpath.addr
                 (comb_memreq_msg_pack T line_nbytes (buffreq_addr_reg r)
                    msg))
    + 4 * Bits.uint (read_word_sel line_nbytes r)
    + Bits.uint (buffreq_addr_reg r) mod 4
  ∧ 0 <= Bits.uint (read_word_sel line_nbytes r)
       < 2 ^ (line_bw line_nbytes - 2).
Proof.
  intros Hbw Hfit.
  rewrite memreq_addr_uint by (lia || done).
  rewrite read_word_sel_uint by lia. simpl.
  set (a := Bits.uint (buffreq_addr_reg r)).
  set (bw := line_bw line_nbytes) in *.
  assert (0 < 2 ^ (bw - 2)) as Hpos by (apply Z.pow_pos_nonneg; lia).
  assert (2 ^ bw = 4 * 2 ^ (bw - 2)) as Hsplit.
  { replace bw with (2 + (bw - 2)) at 1 by lia.
    rewrite Z.pow_add_r by lia. reflexivity. }
  split; [|apply Z.mod_pos_bound; lia].
  pose proof (Z.div_mod a (2 ^ bw)) as Hdm.
  pose proof (Z.rem_mul_r a 4 (2 ^ (bw - 2))) as Hrem.
  rewrite <- Hsplit in Hrem. lia.
Qed.

(** X8. With a line of [2^k] bytes, [2 <= k <= 32], the line has
    [2^(k-2)] words and the word select taken from the address is
    always below that: [read_word_sel_mux] is never asked for a port it
    does not have, whatever the address register and the line hold. *)
Theorem word_select_in_range (k : Z) (r : registers) (line : Bits.t) :
  2 <= k <= 32 →
  line_nwords (2 ^ k) = 2 ^ (k - 2)
  ∧ 0 <= Bits.uint (read_word_sel (2 ^ k) r) < line_nwords (2 ^ k)
  ∧ is_Some (Pclib.Mux (read_words (2 ^ k) line)
               (read_word_sel (2 ^ k) r)).
Proof.
  intros Hk.
  assert (0 < 2 ^ (k - 2)) as Hpos by (apply Z.pow_pos_nonneg; lia).
  assert (line_nwords (2 ^ k) = 2 ^ (k - 2)) as Hw.
  { unfold line_nwords, line_nbits, InstBufferDpath.line_nbits,
      InstBufferDpath.data_nbits.
    replace k with (2 + (k - 2)) at 1 by lia.
    rewrite Z.pow_add_r by lia.
    replace (2 ^ 2 * 2 ^ (k - 2) * 8) with (2 ^ (k - 2) * 32) by lia.
    by apply Z.div_mul. }
  assert (0 <= Bits.uint (read_word_sel (2 ^ k) r) < line_nwords (2 ^ k))
    as Hsel.
  { rewrite Hw, read_word_sel_uint by (rewrite line_bw_pow2; lia).
    rewrite line_bw_pow2 by lia. apply Z.mod_pos_bound. lia. }
  split; [exact Hw|]. split; [exact Hsel|].
  unfold Pclib.Mux.
  destruct (Z.ltb_spec (Bits.uint (read_word_sel (2 ^ k) r)) 0); [lia|].
  apply lookup_lt_is_Some. unfold read_words.
  rewrite length_fmap, length_seq. lia.
Qed.

(** X9. Two registered addresses give the same memory request address
    exactly when they have the same tag, that is, exactly when a tag
    comparator fed with the two tags answers 1: requests are told apart
    by line and by nothing else. *)
Theorem same_line_iff_same_tag (T line_nbytes : Z) (r1 r2 : registers)
    (msg1 msg2 : InstBufferDpath.MemReqMsg) :
  line_bw line_nbytes <= 32 →
  fits 32 (buffreq_addr_reg r1) → fits 32 (buffreq_addr_reg r2) →
  (InstBufferDpath.addr
     (comb_memreq_msg_pack T line_nbytes (buffreq_addr_reg r1) msg1)
   = InstBufferDpath.addr
       (comb_memreq_msg_pack T line_nbytes (buffreq_addr_reg r2) msg2)
   ↔ req_tag line_nbytes r1 = req_tag line_nbytes r2)
  ∧ (req_tag line_nbytes r1 = req_tag line_nbytes r2
     ↔ Pclib.EqComparator (req_tag line_nbytes r1)
         (req_tag line_nbytes r2) = true).
Proof.
  intros Hbw H1 H2. pose proof (line_bw_nonneg line_nbytes) as H0.
  rewrite !memreq_addr_uint, !req_tag_uint by done.
  set (bw := line_bw line_nbytes) in *.
  assert (0 < 2 ^ bw) as Hpos by (apply Z.pow_pos_nonneg; lia).
  unfold Pclib.EqComparator. simpl. rewrite Z.eqb_eq.
  split; split.
  - intros [= H]. f_equal. nia.
  - intros [= H]. by rewrite H.
  - by intros [= H].
  - intros H. by rewrite H.
Qed.

(** X10. The memory request address is the start of the line that holds
    the registered address: it is at most the address and less than one
    line ([2^line_bw] bytes) below it, it is again a 32-bit value with
    the same tag, and aligning it once more changes nothing. *)
Theorem request_address_line (T line_nbytes : Z) (reg : Bits.t)
    (msg : InstBufferDpath.MemReqMsg) :
  line_bw line_nbytes <= 32 → fits 32 reg →
  let a := InstBufferDpath.addr
             (comb_memreq_msg_pack T line_nbytes reg msg) in
  Bits.uint a <= Bits.uint reg < Bits.uint a + 2 ^ line_bw line_nbytes
  ∧ fits 32 a
  ∧ Bits.slice a (line_bw line_nbytes) 32
    = Bits.slice reg (line_bw line_nbytes) 32
  ∧ InstBufferDpath.addr (comb_memreq_msg_pack T line_nbytes a msg) = a.
Proof.
  intros Hbw Hfit a. pose proof (line_bw_nonneg line_nbytes) as H0.
  assert (a = Bits.mk 32 (Bits.uint reg / 2 ^ line_bw line_nbytes
                          * 2 ^ line_bw line_nbytes)) as Ha
    by (by apply memreq_addr_uint).
  destruct Hfit as [Hn Hr].
  set (bw := line_bw line_nbytes) in *.
  assert (0 < 2 ^ bw) as Hpos by (apply Z.pow_pos_nonneg; lia).
  pose proof (Z.div_mod (Bits.uint reg) (2 ^ bw)) as Hdm.
  pose proof (Z.mod_pos_bound (Bits.uint reg) (2 ^ bw) Hpos) as Hmod.
  assert (fits 32 a) as Hfa.
  { rewrite Ha. split; [done|]. simpl. split; [|lia].
    apply Z.mul_nonneg_nonneg; [apply Z.div_pos|]; lia. }
  split; [rewrite Ha; simpl; lia|]. split; [exact Hfa|]. split.
  - rewrite Ha. unfold Bits.slice. simpl. f_equal.
    rewrite !Z.shiftr_div_pow2 by lia. by rewrite Z.div_mul by lia.
  - subst a. rewrite memreq_addr_uint by done.
    fold bw. rewrite Ha. simpl. by rewrite Z.div_mul by lia.
Qed.

(** *** The words of a line *)

(** Word [k] of a line, as [read_word_sel_mux] gets it on port [k]. *)
Lemma read_words_lookup (line_nbytes : Z) (line : Bits.t) (k : nat) :
  (k < Z.to_nat (line_nwords line_nbytes))%nat →
  read_words line_nbytes line !! k
  = Some (Bits.mk 32 ((Bits.uint line / 2 ^ (32 * Z.of_nat k)) mod 2 ^ 32)).
Proof.
  intros Hk. unfold read_words.
  rewrite list_lookup_fmap, lookup_seq_lt by done. simpl.
  unfold Bits.slice, InstBufferDpath.addr_nbits. f_equal.
  replace ((Z.of_nat k + 1) * 32 - Z.of_nat k * 32) with 32 by lia.
  rewrite Z.land_ones by lia. rewrite Z.shiftr_div_pow2 by lia.
  by replace (Z.of_nat k * 32) with (32 * Z.of_nat k) by lia.
Qed.

(** Words [j], [j+1], .. [j+n-1] of a line, put back together. *)
Lemma words_from (L : Z) (n j : nat) :
  foldr (fun w acc => Bits.uint w + 2 ^ 32 * acc) 0
    ((fun k : nat =>
        Bits.mk 32 ((L / 2 ^ (32 * Z.of_nat k)) mod 2 ^ 32))
     <$> seq j n)
  = (L / 2 ^ (32 * Z.of_nat j)) mod 2 ^ (32 * Z.of_nat n).
Proof.
  revert j. induction n as [|n IH]; intros j.
  - simpl. by rewrite Z.mod_1_r.
  - cbn [seq fmap list_fmap foldr]. rewrite (IH (S j)). cbn [Bits.uint].
    set (M := L / 2 ^ (32 * Z.of_nat j)).
    assert (L / 2 ^ (32 * Z.of_nat (S j)) = M / 2 ^ 32) as ->.
    { subst M. rewrite Z.div_div by lia. f_equal.
      rewrite <- Z.pow_add_r by lia. f_equal. lia. }
    replace (32 * Z.of_nat (S n)) with (32 + 32 * Z.of_nat n) by lia.
    rewrite Z.pow_add_r by lia.
    symmetry. apply Z.rem_mul_r; lia.
Qed.

(** X11. The word handed to the response. With a line of [2^k] bytes
    and the data mux on a line [line], the word mux delivers the 32 bits
    of [line] that start at bit [8 * off], where [off] is the offset of
    the registered address within its line, rounded down to a multiple
    of 4. *)
Theorem response_word (k : Z) (i : inputs) (r : registers)
    (line : Bits.t) :
  2 <= k <= 32 →
  fits 32 (buffreq_addr_reg r) →
  read_data i r = Some line →
  let a := Bits.uint (buffreq_addr_reg r) in
  let off := a mod 2 ^ k - a mod 4 in
  0 <= off ∧ off mod 4 = 0 ∧ off + 4 <= 2 ^ k
  ∧ read_word (2 ^ k) i r
    = Some (Bits.mk 32 ((Bits.uint line / 2 ^ (8 * off)) mod 2 ^ 32)).
Proof.
  intros Hk Hfit Hline a off.
  assert (0 < 2 ^ (k - 2)) as Hpos by (apply Z.pow_pos_nonneg; lia).
  assert (2 ^ k = 4 * 2 ^ (k - 2)) as Hsplit.
  { replace k with (2 + (k - 2)) at 1 by lia.
    rewrite Z.pow_add_r by lia. reflexivity. }
  assert (off = 4 * ((a / 4) mod 2 ^ (k - 2))) as Hoff.
  { subst off. rewrite Hsplit, Z.rem_mul_r by lia. lia. }
  pose proof (Z.mod_pos_bound (a / 4) (2 ^ (k - 2)) Hpos) as Hs.
  split; [lia|]. split.
  { rewrite Hoff, Z.mul_comm. by apply Z.mod_mul. }
  split; [lia|].
  unfold read_word. rewrite Hline. simpl.
  assert (Bits.uint (read_word_sel (2 ^ k) r) = (a / 4) mod 2 ^ (k - 2))
    as Hsel.
  { rewrite read_word_sel_uint by (rewrite line_bw_pow2; lia).
    by rewrite line_bw_pow2 by lia. }
  unfold Pclib.Mux. rewrite Hsel.
  destruct (Z.ltb_spec ((a / 4) mod 2 ^ (k - 2)) 0); [lia|].
  rewrite read_words_lookup.
  - rewrite Z2Nat.id by lia.
    by replace (32 * ((a / 4) mod 2 ^ (k - 2))) with (8 * off) by lia.
  - destruct (word_select_bound k) as [Hw _]; [lia|].
    rewrite Hw. apply Z2Nat.inj_lt; lia.
Qed.

Lemma word_slice (line : Bits.t) (k : nat) :
  Bits.slice line (Z.of_nat k * InstBufferDpath.addr_nbits)
    ((Z.of_nat k + 1) * InstBufferDpath.addr_nbits)
  = Bits.mk 32 ((Bits.uint line / 2 ^ (32 * Z.of_nat k)) mod 2 ^ 32).
Proof.
  unfold Bits.slice, InstBufferDpath.addr_nbits.
  replace ((Z.of_nat k + 1) * 32 - Z.of_nat k * 32) with 32 by lia.
  rewrite Z.land_ones by lia. rewrite Z.shiftr_div_pow2 by lia.
  by replace (Z.of_nat k * 32) with (32 * Z.of_nat k) by lia.
Qed.

(** X12. The word mux sees the whole line, once. For a line size that
    is a multiple of 4 bytes, the inputs of [read_word_sel_mux] are
    [line_nbytes / 4] words of 32 bits, and putting them back together,
    word 0 lowest, gives the line: no bit of the line is lost or seen
    twice. *)
Theorem line_words_partition (line_nbytes : Z) (line : Bits.t) :
  0 <= line_nbytes → line_nbytes mod 4 = 0 →
  fits (line_nbits line_nbytes) line →
  length (read_words line_nbytes line) = Z.to_nat (line_nbytes / 4)
  ∧ Forall (fits 32) (read_words line_nbytes line)
  ∧ foldr (fun w acc => Bits.uint w + 2 ^ 32 * acc) 0
      (read_words line_nbytes line)
    = Bits.uint line.
Proof.
  intros Hn Hmod [_ Hline].
  assert (line_nwords line_nbytes = line_nbytes / 4) as Hw.
  { unfold line_nwords, InstBufferDpath.line_nbits,
      InstBufferDpath.data_nbits.
    replace 32 with (4 * 8) by lia. apply Z.div_mul_cancel_r; lia. }
  assert (line_nbytes = 4 * (line_nbytes / 4)) as Hdiv.
  { pose proof (Z.div_mod line_nbytes 4). lia. }
  assert (0 <= line_nbytes / 4) as Hq by (apply Z.div_pos; lia).
  assert (read_words line_nbytes line
          = (fun k : nat =>
               Bits.mk 32
                 ((Bits.uint line / 2 ^ (32 * Z.of_nat k)) mod 2 ^ 32))
            <$> seq 0 (Z.to_nat (line_nbytes / 4))) as Hwords.
  { unfold read_words. rewrite Hw. apply list_fmap_ext.
    intros _ k _. apply word_slice. }
  rewrite Hwords. split; [by rewrite length_fmap, length_seq|]. split.
  - apply Forall_fmap, Forall_forall. intros k _. split; [done|].
    simpl. apply Z.mod_pos_bound. lia.
  - rewrite words_from. simpl. rewrite Z.div_1_r.
    apply Z.mod_small. rewrite Z2Nat.id by lia.
    unfold line_nbits, InstBufferDpath.line_nbits in Hline.
    replace (32 * (line_nbytes / 4)) with (line_nbytes * 8) by lia.
    exact Hline.
Qed.

(** *** Clock edges *)

Lemma tag_array_tick (line_nbytes : Z) (i : inputs) (r : registers)
    (w : nat) :
  tag_array (tick line_nbytes i r) !! w
  = Pclib.RegEnRst (tag_nbits line_nbytes) 0 (reset i)
      (Z.testbit (Bits.uint (arrays_wen_mask i)) (Z.of_nat w))
      (req_tag line_nbytes r)
    <$> tag_array r !! w.
Proof. unfold tick. cbn [tag_array]. by rewrite list_lookup_imap. Qed.

Lemma data_array_tick (line_nbytes : Z) (i : inputs) (r : registers)
    (w : nat) :
  data_array (tick line_nbytes i r) !! w
  = Pclib.RegEnRst (line_nbits line_nbytes) 0 (reset i)
      (Z.testbit (Bits.uint (arrays_wen_mask i)) (Z.of_nat w))
      (memresp_msg_data i)
    <$> data_array r !! w.
Proof. unfold tick. cbn [data_array]. by rewrite list_lookup_imap. Qed.

Lemma tag_match_lookup (line_nbytes : Z) (r : registers) (w : nat) :
  tag_match_mask line_nbytes r !! w
  = Pclib.EqComparator (req_tag line_nbytes r) <$> tag_array r !! w.
Proof. unfold tag_match_mask. by rewrite list_lookup_fmap. Qed.

Lemma regenrst_fits (n : Z) (rst en : bool) (in_ out : Bits.t) :
  0 <= n → fits n in_ → fits n out →
  fits n (Pclib.RegEnRst n 0 rst en in_ out).
Proof.
  intros Hn Hin Hout. unfold Pclib.RegEnRst.
  destruct rst; [|by destruct en].
  rewrite InstBufferFacts.make_zero. split; [done|]. simpl.
  split; [lia | by apply Z.pow_pos_nonneg].
Qed.

Lemma req_tag_fits (line_nbytes : Z) (r : registers) :
  line_bw line_nbytes <= 32 → fits 32 (buffreq_addr_reg r) →
  fits (tag_nbits line_nbytes) (req_tag line_nbytes r).
Proof.
  intros Hbw Hfit. pose proof (line_bw_nonneg line_nbytes) as H0.
  rewrite req_tag_uint by done. destruct Hfit as [_ Hr].
  unfold tag_nbits, InstBufferDpath.tag_nbits, InstBufferDpath.addr_nbits.
  split; [done|]. simpl.
  set (bw := line_bw line_nbytes) in *.
  assert (0 < 2 ^ bw) by (apply Z.pow_pos_nonneg; lia).
  split; [apply Z.div_pos; lia|].
  apply Z.div_lt_upper_bound; [lia|].
  rewrite <- Z.pow_add_r by lia.
  replace (bw + (32 - bw)) with 32 by lia. lia.
Qed.

(** X13. Refill, then look up. On an edge without reset that
    write-enables entry [w], the entry takes the tag of the registered
    request and the line on [memresp_msg.data]. Afterwards the tag
    comparator of entry [w] answers 1 exactly when the address register
    then holds an address of the same line (always, if no new request
    was registered on that edge), and the data mux set to way [w]
    returns the line just written. *)
Theorem refill_then_lookup (line_nbytes : Z) (i : inputs) (r : registers)
    (w : nat) :
  line_bw line_nbytes <= 32 →
  fits 32 (buffreq_addr_reg r) → fits 32 (buffreq_msg_addr i) →
  reset i = false →
  Z.testbit (Bits.uint (arrays_wen_mask i)) (Z.of_nat w) = true →
  (w < length (tag_array r))%nat → (w < length (data_array r))%nat →
  let r' := tick line_nbytes i r in
  tag_array r' !! w = Some (req_tag line_nbytes r)
  ∧ data_array r' !! w = Some (memresp_msg_data i)
  ∧ (tag_match_mask line_nbytes r' !! w = Some true
     ↔ req_tag line_nbytes r' = req_tag line_nbytes r)
  ∧ (buffreq_en i = false →
     tag_match_mask line_nbytes r' !! w = Some true)
  ∧ (∀ i', Bits.uint (way_sel_current i') = Z.of_nat w →
           read_data i' r' = Some (memresp_msg_data i)).
Proof.
  intros Hbw Hr Hin Hrst Hwen Hlt Hld r'.
  destruct (lookup_lt_is_Some_2 _ _ Hlt) as [t Ht].
  destruct (lookup_lt_is_Some_2 _ _ Hld) as [d Hd].
  assert (tag_array r' !! w = Some (req_tag line_nbytes r)) as Htag.
  { subst r'. rewrite tag_array_tick, Ht, Hrst, Hwen. done. }
  assert (data_array r' !! w = Some (memresp_msg_data i)) as Hdata.
  { subst r'. rewrite data_array_tick, Hd, Hrst, Hwen. done. }
  assert (fits 32 (buffreq_addr_reg r')) as Hr'.
  { subst r'. unfold tick. cbn [buffreq_addr_reg].
    apply regenrst_fits; [done | exact Hin | exact Hr]. }
  assert (tag_match_mask line_nbytes r' !! w = Some true
          ↔ req_tag line_nbytes r' = req_tag line_nbytes r) as Hiff.
  { rewrite tag_match_lookup, Htag. simpl.
    rewrite !req_tag_uint by done. unfold Pclib.EqComparator. simpl.
    split.
    - intros [= H]. apply Z.eqb_eq in H. by rewrite H.
    - intros [= H]. by rewrite H, Z.eqb_refl. }
  split; [exact Htag|]. split; [exact Hdata|]. split; [exact Hiff|].
  split.
  - intros Hen. apply Hiff. unfold req_tag. f_equal.
    subst r'. unfold tick. cbn [buffreq_addr_reg].
    unfold Pclib.RegEnRst. by rewrite Hrst, Hen.
  - intros i' Hsel. unfold read_data, Pclib.Mux. rewrite Hsel.
    destruct (Z.ltb_spec (Z.of_nat w) 0); [lia|].
    by rewrite Nat2Z.id.
Qed.

(** X14. An entry that is not write-enabled keeps its contents. On an
    edge without reset, entry [w] of the tag array and of the data array
    is unchanged when bit [w] of [arrays_wen_mask] is 0, whatever
    arrives on the request and response ports. *)
Theorem entry_holds_without_enable (line_nbytes : Z) (i : inputs)
    (r : registers) (w : nat) :
  reset i = false →
  Z.testbit (Bits.uint (arrays_wen_mask i)) (Z.of_nat w) = false →
  tag_array (tick line_nbytes i r) !! w = tag_array r !! w
  ∧ data_array (tick line_nbytes i r) !! w = data_array r !! w.
Proof.
  intros Hrst Hwen. rewrite tag_array_tick, data_array_tick, Hrst, Hwen.
  unfold Pclib.RegEnRst.
  split; [by destruct (tag_array r !! w) | by destruct (data_array r !! w)].
Qed.

(** X15. An edge with reset low and every enable low changes no register,
    so every output of the datapath stays as it was. *)
Theorem idle_edge_changes_nothing (line_nbytes : Z) (i : inputs)
    (r : registers) :
  reset i = false → buffreq_en i = false → memresp_en i = false →
  Bits.uint (arrays_wen_mask i) = 0 →
  tick line_nbytes i r = r.
Proof.
  intros Hrst Hreq Hresp Hmask. destruct r as [a o m tags lines].
  unfold tick. cbn [buffreq_addr_reg buffreq_opaque_reg memresp_data_reg
                    tag_array data_array].
  rewrite Hrst, Hreq, Hresp, Hmask. unfold Pclib.RegEnRst.
  f_equal; apply list_eq; intros k; rewrite list_lookup_imap,
    Z.testbit_0_l; by destruct (_ !! k).
Qed.

(** X16. The declared widths are an invariant of the clock edge: if the
    message fields on the ports have their widths, registers that have
    theirs (32-bit address, 8-bit opaque, [line_nbits] data,
    [num_entries] tags of [tag_nbits] bits and as many lines) still have
    them after any edge, reset or not, whatever the enables are. *)
Theorem tick_keeps_widths (line_nbytes : Z) (num_entries : nat)
    (i : inputs) (r : registers) :
  0 <= line_nbytes → line_bw line_nbytes <= 32 →
  inputs_ok line_nbytes i →
  registers_ok line_nbytes num_entries r →
  registers_ok line_nbytes num_entries (tick line_nbytes i r).
Proof.
  intros Hn Hbw (Hia & Hio & Hid) (Ha & Ho & Hm & Hlt & Ht & Hld & Hd).
  pose proof (line_bw_nonneg line_nbytes) as H0.
  assert (0 <= InstBufferDpath.line_nbits line_nbytes) as Hln
    by (unfold InstBufferDpath.line_nbits; lia).
  assert (0 <= InstBufferDpath.tag_nbits line_nbytes) as Htn.
  { unfold InstBufferDpath.tag_nbits, InstBufferDpath.addr_nbits. lia. }
  unfold registers_ok, tick.
  cbn [buffreq_addr_reg buffreq_opaque_reg memresp_data_reg tag_array
       data_array].
  rewrite !length_imap.
  split; [apply regenrst_fits; [done | exact Hia | exact Ha]|].
  split; [apply regenrst_fits; [done | exact Hio | exact Ho]|].
  split; [apply regenrst_fits; [done | exact Hid | exact Hm]|].
  split; [exact Hlt|]. split; [|split; [exact Hld|]].
  - apply Forall_lookup_2. intros k x. rewrite list_lookup_imap.
    destruct (tag_array r !! k) as [t|] eqn:Ek; [|done].
    intros [= <-]. apply regenrst_fits; [done | | ].
    + by apply req_tag_fits.
    + by apply (proj1 (Forall_lookup _ _) Ht k).
  - apply Forall_lookup_2. intros k x. rewrite list_lookup_imap.
    destruct (data_array r !! k) as [d|] eqn:Ek; [|done].
    intros [= <-]. apply regenrst_fits; [done | exact Hid | ].
    by apply (proj1 (Forall_lookup _ _) Hd k).
Qed.

(** X17. A reset edge clears every register, whatever the enables and
    the ports carry. Since the cleared address has tag 0 and so has
    every cleared entry, every tag comparator answers 1 right after
    reset: the datapath itself has no notion of a valid entry. *)
Theorem reset_edge (line_nbytes : Z) (i : inputs) (r : registers) :
  reset i = true →
  let r' := tick line_nbytes i r in
  buffreq_addr_reg r' = Bits.mk 32 0
  ∧ buffreq_opaque_reg r' = Bits.mk 8 0
  ∧ memresp_data_reg r' = Bits.mk (line_nbits line_nbytes) 0
  ∧ tag_array r'
    = replicate (length (tag_array r))
        (Bits.mk (tag_nbits line_nbytes) 0)
  ∧ data_array r'
    = replicate (length (data_array r))
        (Bits.mk (line_nbits line_nbytes) 0)
  ∧ tag_match_mask line_nbytes r'
    = replicate (length (tag_array r)) true.
Proof.
  intros Hrst r'.
  assert (tag_array r'
          = replicate (length (tag_array r))
              (Bits.mk (tag_nbits line_nbytes) 0)) as Htags.
  { subst r'. apply list_eq. intros k. rewrite tag_array_tick, Hrst.
    unfold Pclib.RegEnRst. rewrite InstBufferFacts.make_zero.
    destruct (tag_array r !! k) as [t|] eqn:Ek; simpl.
    - symmetry. apply lookup_replicate_2.
      by apply lookup_lt_is_Some_1.
    - symmetry. apply lookup_replicate_None.
      by apply lookup_ge_None_1. }
  assert (data_array r'
          = replicate (length (data_array r))
              (Bits.mk (line_nbits line_nbytes) 0)) as Hlines.
  { subst r'. apply list_eq. intros k. rewrite data_array_tick, Hrst.
    unfold Pclib.RegEnRst. rewrite InstBufferFacts.make_zero.
    destruct (data_array r !! k) as [t|] eqn:Ek; simpl.
    - symmetry. apply lookup_replicate_2.
      by apply lookup_lt_is_Some_1.
    - symmetry. apply lookup_replicate_None.
      by apply lookup_ge_None_1. }
  assert (buffreq_addr_reg r' = Bits.mk 32 0) as Haddr.
  { subst r'. unfold tick. cbn [buffreq_addr_reg]. by rewrite Hrst. }
  split; [exact Haddr|].
  split; [subst r'; unfold tick; cbn [buffreq_opaque_reg];
          by rewrite Hrst|].
  split; [subst r'; unfold tick; cbn [memresp_data_reg]; rewrite Hrst;
          apply InstBufferFacts.make_zero|].
  split; [exact Htags|]. split; [exact Hlines|].
  unfold tag_match_mask, req_tag. rewrite Htags, Haddr, fmap_replicate.
  f_equal. unfold Pclib.EqComparator, Bits.slice. simpl.
  by rewrite Z.shiftr_0_l, Z.land_0_l.
Qed.

Lemma read_word_at (k : Z) (i : inputs) (r : registers) (line : Bits.t) :
  2 <= k <= 32 →
  read_data i r = Some line →
  read_word (2 ^ k) i r
  = Some (Bits.mk 32
            ((Bits.uint line
              / 2 ^ (8 * (Bits.uint (buffreq_addr_reg r) mod 2 ^ k
                          - Bits.uint (buffreq_addr_reg r) mod 4)))
             mod 2 ^ 32)).
Proof.
  intros Hk Hline. set (a := Bits.uint (buffreq_addr_reg r)).
  destruct (word_select_bound k) as [Hw Hpos]; [lia|].
  assert (2 ^ k = 4 * 2 ^ (k - 2)) as Hsplit.
  { replace k with (2 + (k - 2)) at 1 by lia.
    rewrite Z.pow_add_r by lia. reflexivity. }
  assert (a mod 2 ^ k - a mod 4 = 4 * ((a / 4) mod 2 ^ (k - 2))) as Hoff.
  { rewrite Hsplit, Z.rem_mul_r by lia. lia. }
  pose proof (Z.mod_pos_bound (a / 4) (2 ^ (k - 2)) Hpos) as Hs.
  assert (Bits.uint (read_word_sel (2 ^ k) r) = (a / 4) mod 2 ^ (k - 2))
    as Hsel.
  { rewrite read_word_sel_uint by (rewrite line_bw_pow2; lia).
    by rewrite line_bw_pow2 by lia. }
  unfold read_word. rewrite Hline. simpl.
  unfold Pclib.Mux. rewrite Hsel.
  destruct (Z.ltb_spec ((a / 4) mod 2 ^ (k - 2)) 0); [lia|].
  rewrite read_words_lookup.
  - rewrite Z2Nat.id by lia. rewrite Hoff.
    by replace (8 * (4 * ((a / 4) mod 2 ^ (k - 2))))
      with (32 * ((a / 4) mod 2 ^ (k - 2))) by lia.
  - rewrite Hw. apply Z2Nat.inj_lt; lia.
Qed.

(** X18. The response message. With a line of [2^k] bytes, after an
    edge without reset and with the data mux on a line [line], the
    message on [buffresp_msg] is a read response of length 0 whose
    [data] is the word of [line] at the word-aligned offset of the
    address the register holds after the edge, whose [test] field is the
    hit bit extended to two bits (0 or 1, never 2 or 3), and whose
    [opaque] is that of the request registered last: the one on the
    port if [buffreq_en] was high on the edge, the one held before
    otherwise. *)
Theorem response_message (T k : Z) (i i' : inputs) (r : registers)
    (line : Bits.t) :
  2 <= k <= 32 →
  reset i = false → fits 1 (buffresp_hit i') →
  read_data i' (tick (2 ^ k) i r) = Some line →
  let r' := tick (2 ^ k) i r in
  let a := Bits.uint (if buffreq_en i then buffreq_msg_addr i
                      else buffreq_addr_reg r) in
  let off := a mod 2 ^ k - a mod 4 in
  buffresp_msg T (2 ^ k) i' r'
  = Some (MkMemRespMsg T
            (if buffreq_en i then buffreq_msg_opaque i
             else buffreq_opaque_reg r)
            (Bits.mk 2 (Bits.uint (buffresp_hit i')))
            (Bits.mk 2 0)
            (Bits.mk 32 ((Bits.uint line / 2 ^ (8 * off)) mod 2 ^ 32)))
  ∧ ∀ m, buffresp_msg T (2 ^ k) i' r' = Some m →
         Bits.nbits (test m) = 2 ∧ 0 <= Bits.uint (test m) <= 1.
Proof.
  intros Hk Hrst [Hw Hhit] Hline r' a off.
  assert (buffreq_addr_reg r'
          = if buffreq_en i then buffreq_msg_addr i
            else buffreq_addr_reg r) as Haddr.
  { subst r'. unfold tick. cbn [buffreq_addr_reg].
    unfold Pclib.RegEnRst. by rewrite Hrst. }
  assert (buffreq_opaque_reg r'
          = if buffreq_en i then buffreq_msg_opaque i
            else buffreq_opaque_reg r) as Hopq.
  { subst r'. unfold tick. cbn [buffreq_opaque_reg].
    unfold Pclib.RegEnRst. by rewrite Hrst. }
  assert (Bits.concat (Bits.make 1 0) (buffresp_hit i')
          = Bits.mk 2 (Bits.uint (buffresp_hit i'))) as Htest.
  { unfold Bits.concat, Bits.make. simpl. rewrite Hw. f_equal. }
  assert (buffresp_msg T (2 ^ k) i' r'
          = Some (MkMemRespMsg T
                    (if buffreq_en i then buffreq_msg_opaque i
                     else buffreq_opaque_reg r)
                    (Bits.mk 2 (Bits.uint (buffresp_hit i')))
                    (Bits.mk 2 0)
                    (Bits.mk 32
                       ((Bits.uint line / 2 ^ (8 * off)) mod 2 ^ 32))))
    as Hmsg.
  { change (read_data i' r' = Some line) in Hline. clearbody r'.
    unfold buffresp_msg. rewrite (read_word_at k i' r' line Hk Hline).
    simpl. unfold comb_buffresp_msg_pack.
    rewrite Htest, Hopq, Haddr, InstBufferFacts.make_zero. done. }
  split; [exact Hmsg|].
  intros m Hm. rewrite Hmsg in Hm. injection Hm as <-. simpl.
  split; [done | lia].
Qed.

(** *** The datapath on the sample buffer *)

Ltac fits_by_computation :=
  split; [reflexivity
         | split; [vm_compute; discriminate | vm_compute; reflexivity]].

Lemma sample_line_bw : 2 <= line_bw 16 <= 32.
Proof. split; vm_compute; discriminate. Qed.

Lemma sample_line_bw_le : line_bw 16 <= 32.
Proof. vm_compute; discriminate. Qed.

Lemma sample_addr_fits : fits 32 (buffreq_addr_reg sample_registers).
Proof. fits_by_computation. Qed.

Lemma sample_next_addr_fits :
  fits 32 (buffreq_addr_reg (tick 16 sample_inputs sample_registers)).
Proof. fits_by_computation. Qed.

Lemma sample_port_addr_fits : fits 32 (buffreq_msg_addr sample_inputs).
Proof. fits_by_computation. Qed.

Lemma sample_inputs_ok : inputs_ok 16 sample_inputs.
Proof. repeat split; try (vm_compute; discriminate); vm_compute; reflexivity. Qed.

Lemma sample_registers_ok : registers_ok 16 2 sample_registers.
Proof.
  unfold registers_ok. simpl.
  repeat match goal with
         | |- _ ∧ _ => split
         | |- Forall _ _ => constructor
         | |- fits _ _ => fits_by_computation
         | |- _ => reflexivity
         end.
Qed.

Lemma request_address_splits_witness :
  2 <= line_bw 16 <= 32
  ∧ fits 32 (buffreq_addr_reg sample_registers)
  ∧ Bits.uint (buffreq_addr_reg sample_registers)
    = Bits.uint (InstBufferDpath.addr
                   (comb_memreq_msg_pack 0 16
                      (buffreq_addr_reg sample_registers) sample_memreq))
      + 4 * Bits.uint (read_word_sel 16 sample_registers)
      + Bits.uint (buffreq_addr_reg sample_registers) mod 4
  ∧ 0 <= Bits.uint (read_word_sel 16 sample_registers)
       < 2 ^ (line_bw 16 - 2).
Proof.
  split; [exact sample_line_bw|]. split; [exact sample_addr_fits|].
  apply (request_address_splits 0 16 sample_registers sample_memreq
           sample_line_bw sample_addr_fits).
Defined.

Lemma word_select_in_range_witness :
  2 <= 4 <= 32
  ∧ line_nwords (2 ^ 4) = 2 ^ (4 - 2)
  ∧ 0 <= Bits.uint (read_word_sel (2 ^ 4) sample_registers)
       < line_nwords (2 ^ 4)
  ∧ is_Some (Pclib.Mux (read_words (2 ^ 4) (Bits.mk 128 77))
               (read_word_sel (2 ^ 4) sample_registers)).
Proof.
  assert (2 <= 4 <= 32) as Hk by lia.
  split; [exact Hk|].
  apply (word_select_in_range 4 sample_registers (Bits.mk 128 77) Hk).
Defined.

Lemma same_line_iff_same_tag_witness :
  line_bw 16 <= 32
  ∧ fits 32 (buffreq_addr_reg sample_registers)
  ∧ fits 32 (buffreq_addr_reg (tick 16 sample_inputs sample_registers))
  ∧ (InstBufferDpath.addr
       (comb_memreq_msg_pack 0 16 (buffreq_addr_reg sample_registers)
          sample_memreq)
     = InstBufferDpath.addr
         (comb_memreq_msg_pack 0 16
            (buffreq_addr_reg (tick 16 sample_inputs sample_registers))
            sample_memreq)
     ↔ req_tag 16 sample_registers
       = req_tag 16 (tick 16 sample_inputs sample_registers))
  ∧ (req_tag 16 sample_registers
     = req_tag 16 (tick 16 sample_inputs sample_registers)
     ↔ Pclib.EqComparator (req_tag 16 sample_registers)
         (req_tag 16 (tick 16 sample_inputs sample_registers)) = true).
Proof.
  split; [exact sample_line_bw_le|]. split; [exact sample_addr_fits|].
  split; [exact sample_next_addr_fits|].
  apply (same_line_iff_same_tag 0 16 sample_registers
           (tick 16 sample_inputs sample_registers) sample_memreq
           sample_memreq sample_line_bw_le sample_addr_fits
           sample_next_addr_fits).
Defined.

Lemma request_address_line_witness :
  line_bw 16 <= 32
  ∧ fits 32 (buffreq_addr_reg sample_registers)
  ∧ let a := InstBufferDpath.addr
               (comb_memreq_msg_pack 0 16
                  (buffreq_addr_reg sample_registers) sample_memreq) in
    Bits.uint a <= Bits.uint (buffreq_addr_reg sample_registers)
      < Bits.uint a + 2 ^ line_bw 16
    ∧ fits 32 a
    ∧ Bits.slice a (line_bw 16) 32
      = Bits.slice (buffreq_addr_reg sample_registers) (line_bw 16) 32
    ∧ InstBufferDpath.addr (comb_memreq_msg_pack 0 16 a sample_memreq)
      = a.
Proof.
  split; [exact sample_line_bw_le|]. split; [exact sample_addr_fits|].
  apply (request_address_line 0 16 (buffreq_addr_reg sample_registers)
           sample_memreq sample_line_bw_le sample_addr_fits).
Defined.

Lemma response_word_witness :
  let line := Bits.mk 128 (1 + 2 * 2 ^ 32 + 3 * 2 ^ 64 + 4 * 2 ^ 96) in
  2 <= 4 <= 32
  ∧ fits 32 (buffreq_addr_reg sample_registers)
  ∧ read_data sample_inputs sample_registers = Some line
  ∧ let a := Bits.uint (buffreq_addr_reg sample_registers) in
    let off := a mod 2 ^ 4 - a mod 4 in
    0 <= off ∧ off mod 4 = 0 ∧ off + 4 <= 2 ^ 4
    ∧ read_word (2 ^ 4) sample_inputs sample_registers
      = Some (Bits.mk 32 ((Bits.uint line / 2 ^ (8 * off)) mod 2 ^ 32)).
Proof.
  intros line.
  assert (2 <= 4 <= 32) as Hk by lia.
  assert (read_data sample_inputs sample_registers = Some line) as Hl
    by reflexivity.
  split; [exact Hk|]. split; [exact sample_addr_fits|].
  split; [exact Hl|].
  apply (response_word 4 sample_inputs sample_registers line Hk
           sample_addr_fits Hl).
Defined.

Lemma line_words_partition_witness :
  let line := Bits.mk 128 (1 + 2 * 2 ^ 32 + 3 * 2 ^ 64 + 4 * 2 ^ 96) in
  0 <= 16 ∧ 16 mod 4 = 0 ∧ fits (line_nbits 16) line
  ∧ length (read_words 16 line) = Z.to_nat (16 / 4)
  ∧ Forall (fits 32) (read_words 16 line)
  ∧ foldr (fun w acc => Bits.uint w + 2 ^ 32 * acc) 0
      (read_words 16 line)
    = Bits.uint line.
Proof.
  intros line.
  assert (0 <= 16) as H0 by lia.
  assert (16 mod 4 = 0) as Hm by reflexivity.
  assert (fits (line_nbits 16) line) as Hf by fits_by_computation.
  split; [exact H0|]. split; [exact Hm|]. split; [exact Hf|].
  apply (line_words_partition 16 line H0 Hm Hf).
Defined.

Lemma refill_then_lookup_witness :
  line_bw 16 <= 32
  ∧ fits 32 (buffreq_addr_reg sample_registers)
  ∧ fits 32 (buffreq_msg_addr sample_inputs)
  ∧ reset sample_inputs = false
  ∧ Z.testbit (Bits.uint (arrays_wen_mask sample_inputs)) (Z.of_nat 1)
    = true
  ∧ (1 < length (tag_array sample_registers))%nat
  ∧ (1 < length (data_array sample_registers))%nat
  ∧ let r' := tick 16 sample_inputs sample_registers in
    tag_array r' !! 1%nat = Some (req_tag 16 sample_registers)
    ∧ data_array r' !! 1%nat = Some (memresp_msg_data sample_inputs)
    ∧ (tag_match_mask 16 r' !! 1%nat = Some true
       ↔ req_tag 16 r' = req_tag 16 sample_registers)
    ∧ (buffreq_en sample_inputs = false →
       tag_match_mask 16 r' !! 1%nat = Some true)
    ∧ (∀ i', Bits.uint (way_sel_current i') = Z.of_nat 1 →
             read_data i' r' = Some (memresp_msg_data sample_inputs)).
Proof.
  assert (Z.testbit (Bits.uint (arrays_wen_mask sample_inputs))
            (Z.of_nat 1) = true) as Hwen by reflexivity.
  assert (1 < length (tag_array sample_registers))%nat as Ht
    by (simpl; lia).
  assert (1 < length (data_array sample_registers))%nat as Hd
    by (simpl; lia).
  split; [exact sample_line_bw_le|]. split; [exact sample_addr_fits|].
  split; [exact sample_port_addr_fits|]. split; [reflexivity|].
  split; [exact Hwen|]. split; [exact Ht|]. split; [exact Hd|].
  apply (refill_then_lookup 16 sample_inputs sample_registers 1
           sample_line_bw_le sample_addr_fits sample_port_addr_fits
           eq_refl Hwen Ht Hd).
Defined.

Lemma entry_holds_without_enable_witness :
  reset sample_inputs = false
  ∧ Z.testbit (Bits.uint (arrays_wen_mask sample_inputs)) (Z.of_nat 0)
    = false
  ∧ tag_array (tick 16 sample_inputs sample_registers) !! 0%nat
    = tag_array sample_registers !! 0%nat
  ∧ data_array (tick 16 sample_inputs sample_registers) !! 0%nat
    = data_array sample_registers !! 0%nat.
Proof.
  split; [reflexivity|]. split; [reflexivity|].
  apply (entry_holds_without_enable 16 sample_inputs sample_registers 0
           eq_refl eq_refl).
Defined.

Lemma idle_edge_changes_nothing_witness :
  reset idle_inputs = false ∧ buffreq_en idle_inputs = false
  ∧ memresp_en idle_inputs = false
  ∧ Bits.uint (arrays_wen_mask idle_inputs) = 0
  ∧ tick 16 idle_inputs sample_registers = sample_registers.
Proof.
  split; [reflexivity|]. split; [reflexivity|]. split; [reflexivity|].
  split; [reflexivity|].
  apply (idle_edge_changes_nothing 16 idle_inputs sample_registers
           eq_refl eq_refl eq_refl eq_refl).
Defined.

Lemma tick_keeps_widths_witness :
  0 <= 16 ∧ line_bw 16 <= 32
  ∧ inputs_ok 16 sample_inputs
  ∧ registers_ok 16 2 sample_registers
  ∧ registers_ok 16 2 (tick 16 sample_inputs sample_registers).
Proof.
  assert (0 <= 16) as H0 by lia.
  split; [exact H0|]. split; [exact sample_line_bw_le|].
  split; [exact sample_inputs_ok|]. split; [exact sample_registers_ok|].
  apply (tick_keeps_widths 16 2 sample_inputs sample_registers H0
           sample_line_bw_le sample_inputs_ok sample_registers_ok).
Defined.

Lemma reset_edge_witness :
  reset reset_inputs = true
  ∧ let r' := tick 16 reset_inputs sample_registers in
    buffreq_addr_reg r' = Bits.mk 32 0
    ∧ buffreq_opaque_reg r' = Bits.mk 8 0
    ∧ memresp_data_reg r' = Bits.mk (line_nbits 16) 0
    ∧ tag_array r'
      = replicate (length (tag_array sample_registers))
          (Bits.mk (tag_nbits 16) 0)
    ∧ data_array r'
      = replicate (length (data_array sample_registers))
          (Bits.mk (line_nbits 16) 0)
    ∧ tag_match_mask 16 r'
      = replicate (length (tag_array sample_registers)) true.
Proof.
  split; [reflexivity|].
  apply (reset_edge 16 reset_inputs sample_registers eq_refl).
Defined.

Lemma response_message_witness :
  let line := Bits.mk 128 (1 + 2 * 2 ^ 32 + 3 * 2 ^ 64 + 4 * 2 ^ 96) in
  2 <= 4 <= 32
  ∧ reset sample_inputs = false
  ∧ fits 1 (buffresp_hit sample_inputs)
  ∧ read_data sample_inputs (tick (2 ^ 4) sample_inputs sample_registers)
    = Some line
  ∧ let r' := tick (2 ^ 4) sample_inputs sample_registers in
    let a := Bits.uint (if buffreq_en sample_inputs
                        then buffreq_msg_addr sample_inputs
                        else buffreq_addr_reg sample_registers) in
    let off := a mod 2 ^ 4 - a mod 4 in
    buffresp_msg 0 (2 ^ 4) sample_inputs r'
    = Some (MkMemRespMsg 0
              (if buffreq_en sample_inputs
               then buffreq_msg_opaque sample_inputs
               else buffreq_opaque_reg sample_registers)
              (Bits.mk 2 (Bits.uint (buffresp_hit sample_inputs)))
              (Bits.mk 2 0)
              (Bits.mk 32 ((Bits.uint line / 2 ^ (8 * off)) mod 2 ^ 32)))
    ∧ ∀ m, buffresp_msg 0 (2 ^ 4) sample_inputs r' = Some m →
           Bits.nbits (test m) = 2 ∧ 0 <= Bits.uint (test m) <= 1.
Proof.
  intros line.
  assert (2 <= 4 <= 32) as Hk by lia.
  assert (fits 1 (buffresp_hit sample_inputs)) as Hh
    by fits_by_computation.
  assert (read_data sample_inputs
            (tick (2 ^ 4) sample_inputs sample_registers) = Some line)
    as Hl by reflexivity.
  split; [exact Hk|]. split; [reflexivity|]. split; [exact Hh|].
  split; [exact Hl|].
  apply (response_message 0 4 sample_inputs sample_inputs
           sample_registers line Hk eq_refl Hh Hl).
Defined.

Example sample_buffresp_port :
  buffresp_msg 0 16 sample_inputs (tick 16 sample_inputs sample_registers)
  = Some (MkMemRespMsg 0 (Bits.mk 8 9) (Bits.mk 2 1) (Bits.mk 2 0)
            (Bits.mk 32 1)).
Proof. vm_compute. reflexivity. Qed.

End DpathFacts.
